(** * Restaurant analytics: the natural-language-to-SQL service

    A shallow embedding of [src/services/llm_service.py]: the response
    sanitizer [_clean_sql_query], the executor [execute_sql], the narration
    and follow-up generators, the facade [process_natural_language_query]
    and the keyword check [validate_query_safety].

    Python [str] values are sequences of Unicode code points; the external
    model, the SQLite store and pandas' renderers are the environment. *)

From Stdlib Require Import String Ascii DecimalString.
From Stdlib Require Import List NArith Bool Arith Lia.
From Equations Require Import Equations.
Import ListNotations.

Set Implicit Arguments.

(** ** Python strings *)

Module PyStr.

(** A [str] is the list of its code points. *)
Definition pystr := list N.

(** An ASCII literal of the source, as a [str]. *)
Definition py (s : string) : pystr :=
  map N_of_ascii (list_ascii_of_string s).

Definition NL : N := 10%N.    (* line feed *)
Definition SEMI : N := 59%N.  (* semicolon *)
Definition TICK : N := 96%N.  (* backtick *)

(** [str.isspace] on one code point: the white-space table of CPython. *)
Definition isspace (c : N) : bool :=
  ((0x09 <=? c) && (c <=? 0x0D) || (0x1C <=? c) && (c <=? 0x20)
   || (c =? 0x85) || (c =? 0xA0) || (c =? 0x1680)
   || (0x2000 <=? c) && (c <=? 0x200A)
   || (c =? 0x2028) || (c =? 0x2029) || (c =? 0x202F)
   || (c =? 0x205F) || (c =? 0x3000))%N.

Fixpoint lstrip (s : pystr) : pystr :=
  match s with
  | c :: s' => if isspace c then lstrip s' else s
  | [] => []
  end.

Definition rstrip (s : pystr) : pystr := rev (lstrip (rev s)).

(** [s.strip()] *)
Definition strip (s : pystr) : pystr := rstrip (lstrip s).

(** [s.startswith(p)] *)
Fixpoint startswith (s p : pystr) {struct p} : bool :=
  match p, s with
  | [], _ => true
  | a :: p', b :: s' => (a =? b)%N && startswith s' p'
  | _ :: _, [] => false
  end.

(** [s.endswith(p)] *)
Definition endswith (s p : pystr) : bool := startswith (rev s) (rev p).

(** [p in s]: [p] occurs in [s] as a contiguous run. *)
Fixpoint contains (p s : pystr) : bool :=
  startswith s p ||
  match s with
  | _ :: s' => contains p s'
  | [] => false
  end.

(** [s.split('\n')] *)
Fixpoint split_nl (s : pystr) : list pystr :=
  match s with
  | [] => [[]]
  | c :: s' =>
      if (c =? NL)%N then [] :: split_nl s'
      else match split_nl s' with
           | l :: ls => (c :: l) :: ls
           | [] => [[c]]
           end
  end.

(** [sep.join(parts)] *)
Fixpoint join (sep : pystr) (parts : list pystr) : pystr :=
  match parts with
  | [] => []
  | [p] => p
  | p :: rest => p ++ sep ++ join sep rest
  end.

(** [str(n)] for a non-negative [int]. *)
Definition str_of_nat (n : nat) : pystr :=
  py (NilEmpty.string_of_uint (Nat.to_uint n)).

(** *** [re.sub] for the two fence patterns

    Both patterns of the source are three backticks, a literal tag
    (["sql"] or nothing) and an optional line feed. *)

Definition fence : pystr := [TICK; TICK; TICK].

(** What is left of [s] when [p] is cut from its head. *)
Fixpoint cut_prefix (p s : pystr) : option pystr :=
  match p, s with
  | [], _ => Some s
  | a :: p', b :: s' => if (a =? b)%N then cut_prefix p' s' else None
  | _ :: _, [] => None
  end.

(** The match of [```tag\n?] at the head of [s]: the text after it.  The
    optional line feed is greedy. *)
Definition match_fence (tag s : pystr) : option pystr :=
  match cut_prefix (fence ++ tag) s with
  | Some (c :: r) => if (c =? NL)%N then Some r else Some (c :: r)
  | Some [] => Some []
  | None => None
  end.

Lemma cut_prefix_length p s r :
  cut_prefix p s = Some r -> length s = length p + length r.
Proof.
  revert s; induction p as [|a p IH]; intros [|b s]; simpl; try discriminate.
  - intros [= <-]; reflexivity.
  - intros [= <-]; reflexivity.
  - destruct (a =? b)%N; [|discriminate].
    intros H; apply IH in H; lia.
Qed.

Lemma match_fence_shorter tag s r :
  match_fence tag s = Some r -> length r < length s.
Proof.
  unfold match_fence.
  destruct (cut_prefix (fence ++ tag) s) as [[|c t]|] eqn:E; try discriminate.
  - intros [= <-]. apply cut_prefix_length in E. simpl in *; lia.
  - apply cut_prefix_length in E.
    destruct (c =? NL)%N; intros [= <-]; simpl in *; lia.
Qed.

Definition inspect {A : Type} (a : A) : {b : A | a = b} := exist _ a eq_refl.

(** [re.sub(r'```tag\n?', '', s)]: scanning from the left, every match is
    dropped and the scan resumes right after it; other characters are
    kept. *)
Equations re_sub_fence (tag s : pystr) : pystr by wf (length s) lt :=
  re_sub_fence tag [] := [];
  re_sub_fence tag (c :: s') with inspect (match_fence tag (c :: s')) := {
    | exist _ (Some r) _ := re_sub_fence tag r;
    | exist _ None _ := c :: re_sub_fence tag s' }.
Next Obligation.
  exact (match_fence_shorter tag (c :: s') e).
Qed.

End PyStr.
Import PyStr.

(** ** The sanitizer *)

(** [LLMSQLService._clean_sql_query] *)
Definition _clean_sql_query (sql_query : pystr) : pystr :=
  let sql_query := re_sub_fence (py "sql") sql_query in
  let sql_query := re_sub_fence [] sql_query in
  let sql_query := strip sql_query in
  if negb (endswith sql_query (py ";")) then sql_query ++ py ";"
  else sql_query.

(** ** The environment: model, store, pandas *)

(** A call either returns or raises an [Exception] whose [str(e)] is
    [msg]. *)
Inductive result (A : Type) : Type :=
| Ok (a : A)
| Raise (msg : pystr).
Arguments Ok {A} a.
Arguments Raise {A} msg.

(** A [pandas.DataFrame]: ordered column names and ordered rows. *)
Record DataFrame (Cell : Type) : Type := {
  columns : list pystr;
  rows : list (list Cell)
}.

(** [df.empty]: some axis has length 0. *)
Definition empty {Cell} (df : DataFrame Cell) : bool :=
  (length (columns df) =? 0) || (length (rows df) =? 0).

(** What the service does not contain itself.  The [n]-th use of the
    model or the store may answer differently from the one before. *)
Record Env (Cell : Type) : Type := {
  (** [self.model.generate_content(prompt).text] at the [n]-th call *)
  gemini : nat -> pystr -> result pystr;
  (** [sqlite3.connect(self.db_path)] at the [n]-th call *)
  sqlite : nat -> result unit;
  (** [pd.read_sql_query(sql_query, conn)] for the [n]-th statement *)
  sql_rows : nat -> pystr -> result (DataFrame Cell);
  (** [df.head().to_string(index=False)] *)
  head_to_string : DataFrame Cell -> pystr;
  (** [df.select_dtypes(include=['number']).columns] *)
  numeric_cols : DataFrame Cell -> list pystr;
  (** [df[numeric_cols].describe().to_string()] *)
  describe_to_string : DataFrame Cell -> list pystr -> pystr;
  (** [str.lower] on a code point above ASCII, given the text before and
      after it (the Unicode case table) *)
  unicode_lower : pystr -> N -> pystr -> pystr
}.

(** What the calls of the service leave behind. *)
Record World : Type := {
  model_calls : list pystr;   (* prompts sent to the model, oldest first *)
  connects : nat;             (* calls of sqlite3.connect *)
  open_conns : list nat;      (* connections opened and not closed *)
  statements : list pystr     (* statements run on the store, oldest first *)
}.

Definition World0 : World :=
  {| model_calls := []; connects := 0; open_conns := []; statements := [] |}.

(** ** Calls that touch the world and may raise *)

Definition M (A : Type) : Type := World -> result A * World.

Definition ret {A} (a : A) : M A := fun w => (Ok a, w).

Definition raise {A} (msg : pystr) : M A := fun w => (Raise msg, w).

Definition bind {A B} (m : M A) (k : A -> M B) : M B :=
  fun w =>
    match m w with
    | (Ok a, w') => k a w'
    | (Raise msg, w') => (Raise msg, w')
    end.

(** [try: body  except Exception as e: handler(str(e))] *)
Definition try_except {A} (body : M A) (handler : pystr -> M A) : M A :=
  fun w =>
    match body w with
    | (Ok a, w') => (Ok a, w')
    | (Raise msg, w') => handler msg w'
    end.

Notation "x <- m ;; k" := (bind m (fun x => k))
  (at level 61, m at next level, right associativity).

Section Service.

Context {Cell : Type} (env : Env Cell).

Definition generate_content (prompt : pystr) : M pystr :=
  fun w =>
    (gemini env (length (model_calls w)) prompt,
     {| model_calls := model_calls w ++ [prompt];
        connects := connects w;
        open_conns := open_conns w;
        statements := statements w |}).

(** The handle of a new connection is its number. *)
Definition sqlite3_connect : M nat :=
  fun w =>
    match sqlite env (connects w) with
    | Ok _ =>
        (Ok (connects w),
         {| model_calls := model_calls w;
            connects := S (connects w);
            open_conns := connects w :: open_conns w;
            statements := statements w |})
    | Raise msg =>
        (Raise msg,
         {| model_calls := model_calls w;
            connects := S (connects w);
            open_conns := open_conns w;
            statements := statements w |})
    end.

Definition read_sql_query (sql_query : pystr) (conn : nat)
  : M (DataFrame Cell) :=
  fun w =>
    (sql_rows env (length (statements w)) sql_query,
     {| model_calls := model_calls w;
        connects := connects w;
        open_conns := open_conns w;
        statements := statements w ++ [sql_query] |}).

Definition conn_close (conn : nat) : M unit :=
  fun w =>
    (Ok tt,
     {| model_calls := model_calls w;
        connects := connects w;
        open_conns := remove Nat.eq_dec conn (open_conns w);
        statements := statements w |}).

(** ** [LLMSQLService] *)

(** [LLMSQLService._get_schema_info] *)
Definition _get_schema_info : pystr := py "
        DATABASE SCHEMA:
        
        1. restaurants: Restaurant information
           - id (INTEGER): Primary key
           - name (TEXT): Restaurant name
           - location (TEXT): Restaurant location
           - cuisine_type (TEXT): Type of cuisine (Italian, Chinese, etc.)
           - capacity (INTEGER): Seating capacity
           - created_at (DATETIME): Creation timestamp
        
        2. menu_items: Menu items for each restaurant
           - id (INTEGER): Primary key
           - restaurant_id (INTEGER): Foreign key to restaurants
           - name (TEXT): Item name
           - category (TEXT): Food category (Appetizers, Main Course, etc.)
           - price (REAL): Item price
           - description (TEXT): Item description
           - calories (INTEGER): Calorie count
           - is_available (INTEGER): 1 if available, 0 if not
        
        3. customers: Customer information
           - id (INTEGER): Primary key
           - name (TEXT): Customer name
           - email (TEXT): Customer email
           - age_group (TEXT): Age range (18-25, 26-35, etc.)
           - preferred_cuisine (TEXT): Preferred cuisine type
           - loyalty_points (INTEGER): Loyalty program points
           - registration_date (DATETIME): Registration date
        
        4. orders: Customer orders
           - id (INTEGER): Primary key
           - restaurant_id (INTEGER): Foreign key to restaurants
           - customer_id (INTEGER): Foreign key to customers
           - order_date (DATETIME): Order timestamp
           - total_amount (REAL): Total order value
           - order_type (TEXT): dine-in, takeout, or delivery
           - status (TEXT): Order status
           - payment_method (TEXT): cash, card, or digital
           - table_number (INTEGER): Table number if dine-in
        
        5. order_items: Items in each order
           - id (INTEGER): Primary key
           - order_id (INTEGER): Foreign key to orders
           - menu_item_id (INTEGER): Foreign key to menu_items
           - quantity (INTEGER): Number of items
           - unit_price (REAL): Price per unit
           - total_price (REAL): Total price for this item
        
        6. reviews: Customer reviews
           - id (INTEGER): Primary key
           - restaurant_id (INTEGER): Foreign key to restaurants
           - customer_id (INTEGER): Foreign key to customers
           - rating (INTEGER): Overall rating (1-5)
           - review_text (TEXT): Review content
           - review_date (DATETIME): Review timestamp
           - food_rating (INTEGER): Food rating (1-5)
           - service_rating (INTEGER): Service rating (1-5)
           - ambiance_rating (INTEGER): Ambiance rating (1-5)
        ".

(** [self.schema_info], set once by [__init__]. *)
Definition schema_info : pystr := _get_schema_info.

(** [LLMSQLService._create_sql_prompt] *)
Definition _create_sql_prompt (question : pystr) : pystr :=
  py "
        You are an expert SQL analyst for a restaurant analytics platform. Convert the following natural language question into a SQL query.
        
        " ++ schema_info ++ py "
        
        IMPORTANT RULES:
        1. Generate ONLY valid SQLite syntax
        2. Use proper JOINs when accessing multiple tables
        3. Include appropriate WHERE clauses for filtering
        4. Use aggregate functions (COUNT, SUM, AVG) when appropriate
        5. Limit results to reasonable numbers (use LIMIT clause)
        6. Use proper date functions for time-based queries
        7. Return only the SQL query, no explanations
        
        Question: " ++ question ++ py "
        
        SQL Query:
        ".

(** [LLMSQLService.generate_sql] *)
Definition generate_sql (question : pystr) : M pystr :=
  try_except
    (let prompt := _create_sql_prompt question in
     response_text <- generate_content prompt ;;
     let sql_query := strip response_text in
     let sql_query := _clean_sql_query sql_query in
     ret sql_query)
    (fun e => raise (py "Error generating SQL: " ++ e)).

(** [LLMSQLService.execute_sql] *)
Definition execute_sql (sql_query : pystr) : M (DataFrame Cell) :=
  try_except
    (conn <- sqlite3_connect ;;
     results <- read_sql_query sql_query conn ;;
     _ <- conn_close conn ;;
     ret results)
    (fun e => raise (py "Error executing SQL: " ++ e)).

(** [LLMSQLService._prepare_results_summary] *)
Definition _prepare_results_summary (results : DataFrame Cell) : pystr :=
  let summary :=
    py "Number of rows: " ++ str_of_nat (length (rows results)) ++ [NL] in
  let summary :=
    summary ++ py "Columns: " ++ join (py ", ") (columns results)
            ++ [NL; NL] in
  let summary := summary ++ py "Sample data:" ++ [NL] in
  let summary := summary ++ head_to_string env results in
  let numeric_cols := numeric_cols env results in
  let summary :=
    if 0 <? length numeric_cols
    then (summary ++ [NL; NL] ++ py "Numeric column statistics:" ++ [NL])
         ++ describe_to_string env results numeric_cols
    else summary in
  summary.

(** The prompt that [generate_insights] sends. *)
Definition insights_prompt (question results_summary : pystr) : pystr :=
  py "
            You are a restaurant business analyst. Based on the following query and results, provide actionable insights.
            
            Original Question: " ++ question ++ py "
            
            Query Results Summary:
            " ++ results_summary ++ py "
            
            Please provide:
            1. Key findings from the data
            2. Business implications
            3. Actionable recommendations
            
            Keep the response concise and business-focused.
            ".

(** [LLMSQLService.generate_insights] *)
Definition generate_insights (question : pystr) (results : DataFrame Cell)
  : M pystr :=
  try_except
    (if empty results then ret (py "No data found for the given query.")
     else
       let results_summary := _prepare_results_summary results in
       let prompt := insights_prompt question results_summary in
       response_text <- generate_content prompt ;;
       ret (strip response_text))
    (fun e => ret (py "Error generating insights: " ++ e)).

(** The prompt that [get_related_questions] sends. *)
Definition related_prompt (original_question : pystr)
    (results : DataFrame Cell) : pystr :=
  py "
            Based on the following restaurant analytics question and its results, suggest 5 related questions that would provide additional insights.
            
            Original Question: " ++ original_question ++ py "
            
            Results columns: "
  ++ (if negb (empty results) then join (py ", ") (columns results)
      else py "No results") ++ py "
            
            Generate questions that:
            1. Explore different aspects of the same topic
            2. Drill down into specific details
            3. Compare different time periods or segments
            4. Identify trends or patterns
            5. Focus on actionable business decisions
            
            Return only the questions, one per line, without numbering.
            ".

(** The literal list of the [except] branch of [get_related_questions]. *)
Definition fallback_questions : list pystr :=
  [ py "What are the top-performing menu items by revenue?";
    py "How do customer ratings vary by cuisine type?";
    py "What are the peak ordering hours?";
    py "Which restaurants have the highest customer retention?";
    py "What's the average order value by customer age group?" ].

(** Truth value of a [str]: it is not empty. *)
Definition truthy (s : pystr) : bool := negb (length s =? 0).

(** [LLMSQLService.get_related_questions] *)
Definition get_related_questions (original_question : pystr)
    (results : DataFrame Cell) : M (list pystr) :=
  try_except
    (let prompt := related_prompt original_question results in
     response_text <- generate_content prompt ;;
     let questions :=
       map strip
           (filter (fun q => truthy (strip q))
                   (split_nl (strip response_text))) in
     ret (firstn 5 questions))
    (fun _ => ret fallback_questions).

(** ** [RestaurantAnalytics] *)

(** [RestaurantAnalytics.process_natural_language_query] *)
Definition process_natural_language_query (question : pystr)
  : M (pystr * DataFrame Cell * pystr) :=
  sql_query <- generate_sql question ;;
  results <- execute_sql sql_query ;;
  insights <- generate_insights question results ;;
  ret (sql_query, results, insights).

(** [str.lower] on an ASCII code point. *)
Definition ascii_lower (c : N) : N :=
  if ((65 <=? c) && (c <=? 90))%N then (c + 32)%N else c.

(** [str.lower]: code point by code point; [before] is the text already
    passed. *)
Fixpoint lower_from (before s : pystr) : pystr :=
  match s with
  | [] => []
  | c :: after =>
      (if (c <? 128)%N then [ascii_lower c]
       else unicode_lower env before c after)
      ++ lower_from (before ++ [c]) after
  end.

Definition lower (s : pystr) : pystr := lower_from [] s.

Definition dangerous_keywords : list pystr :=
  [py "drop"; py "delete"; py "update"; py "insert"; py "alter";
   py "create"].

(** The [for keyword in ...] loop of [validate_query_safety]. *)
Fixpoint no_keyword_in (keywords : list pystr) (query_lower : pystr)
  : bool :=
  match keywords with
  | [] => true
  | keyword :: rest =>
      if contains keyword query_lower then false
      else no_keyword_in rest query_lower
  end.

(** [RestaurantAnalytics.validate_query_safety] *)
Definition validate_query_safety (sql_query : pystr) : bool :=
  let query_lower := lower sql_query in
  no_keyword_in dangerous_keywords query_lower.

End Service.

(** [RestaurantAnalytics.get_related_questions] *)
Definition analytics_get_related_questions {Cell : Type} (env : Env Cell)
    (question : pystr) (results : DataFrame Cell) : M (list pystr) :=
  get_related_questions env question results.

(** ** The REST layer: [api/main.py] *)

Module Api.

(** [QueryResponse]; a record of [results] is whatever
    [DataFrame.to_dict('records')] makes of a row. *)
Record QueryResponse (Rec : Type) : Type := {
  question : pystr;
  sql_query : pystr;
  results : list Rec;
  insights : pystr;
  related_questions : list pystr;
  success : bool;
  error : pystr
}.

Section Endpoint.

Context {Cell Rec : Type} (env : Env Cell).

(** [results.to_dict('records')] *)
Variable to_dict_records : DataFrame Cell -> list Rec.

(** The handler of [POST /api/query]; [request_question] is
    [request.question].  [execute_sql] returns a [DataFrame], so the
    [isinstance] test holds. *)
Definition process_natural_language_query (request_question : pystr)
  : M (QueryResponse Rec) :=
  try_except
    (answer <- process_natural_language_query env request_question ;;
     let '(sql_query, results, insights) := answer in
     let results_dict := to_dict_records results in
     related_questions <-
       analytics_get_related_questions env request_question results ;;
     ret {| question := request_question;
            sql_query := sql_query;
            results := results_dict;
            insights := insights;
            related_questions := related_questions;
            success := true;
            error := [] |})
    (fun e =>
       ret {| question := request_question;
              sql_query := [];
              results := [];
              insights := [];
              related_questions := [];
              success := false;
              error := e |}).

End Endpoint.

End Api.

Unset Implicit Arguments.

(** ** Notions used by the statements *)

(** Every open connection was handed out by an earlier
    [sqlite3.connect]. *)
Definition handles_fresh (w : World) : bool :=
  forallb (fun h => h <? connects w) (open_conns w).

(** [t] is what is left of [s] when some of its characters are deleted:
    the characters of [t] stand in [s] in the same order. *)
Inductive subseq : pystr -> pystr -> Prop :=
| subseq_nil : subseq [] []
| subseq_skip c t s : subseq t s -> subseq t (c :: s)
| subseq_keep c t s : subseq t s -> subseq (c :: t) (c :: s).

(** No white space in the text. *)
Definition no_space (s : pystr) : bool :=
  forallb (fun c => negb (isspace c)) s.

(** The code point is an ASCII one. *)
Definition is_ascii (c : N) : bool := (c <? 128)%N.


(** The response after both substitutions and the trim, before the
    terminator is looked at. *)
Definition unfenced (s : pystr) : pystr :=
  strip (re_sub_fence [] (re_sub_fence (py "sql") s)).

(** The comprehension of [get_related_questions] on a text: the lines
    it keeps, trimmed. *)
Definition keep (q : pystr) : bool := truthy (strip q).
Definition kept (s : pystr) : list pystr :=
  map strip (filter keep (split_nl s)).

(** The follow-up questions as the specification words them: of the
    lines of the response, those that are not empty once trimmed, the
    first five of them, each trimmed. *)
Definition first_nonblank_lines (text : pystr) : list pystr :=
  map strip (firstn 5 (filter (fun l => truthy (strip l)) (split_nl text))).

(** ** Sample environments *)

(** An environment whose model and store follow a script; cells are kept
    as rendered text, pandas renders nothing, and code points above ASCII
    are left alone by [str.lower]. *)
Definition scripted (model : nat -> pystr -> result pystr)
    (store : nat -> pystr -> result (DataFrame pystr)) : Env pystr :=
  {| gemini := model;
     sqlite := fun _ => Ok tt;
     sql_rows := store;
     head_to_string := fun _ => [];
     numeric_cols := fun _ => [];
     describe_to_string := fun _ _ => [];
     unicode_lower := fun _ c _ => [c] |}.

Definition two_rows : DataFrame pystr :=
  {| columns := [py "name"; py "revenue"];
     rows := [[py "Restaurant A"; py "1500"];
              [py "Restaurant B"; py "1200"]] |}.

Definition no_rows : DataFrame pystr :=
  {| columns := [py "name"; py "revenue"]; rows := [] |}.

(** The store knows no table of that name. *)
Definition missing_table_env : Env pystr :=
  scripted (fun _ _ => Ok (py "SELECT * FROM no_such_table;"))
           (fun _ _ => Raise (py "no such table: no_such_table")).

(** The model answers with an empty text. *)
Definition silent_model_env : Env pystr :=
  scripted (fun _ _ => Ok []) (fun _ _ => Ok two_rows).

(** The model is unreachable. *)
Definition model_down_env : Env pystr :=
  scripted (fun _ _ => Raise (py "API Error")) (fun _ _ => Ok two_rows).

(** The model answers a question with a statement that reads a column
    named [created_at], and the narration prompt with a sentence. *)
Definition created_at_env : Env pystr :=
  scripted
    (fun n _ =>
       match n with
       | 0 => Ok (py "SELECT name, created_at FROM restaurants;")
       | _ => Ok (py "Restaurant A leads in revenue generation.")
       end)
    (fun _ _ => Ok two_rows).

(** The model answers with three questions, one per line. *)
Definition three_questions_env : Env pystr :=
  scripted
    (fun _ _ => Ok (py "What are the peak hours?
Which cuisine is most popular?
How do ratings correlate with revenue?"))
    (fun _ _ => Ok two_rows).

(** * Facts about the string operations *)

Module StrFacts.

Lemma re_sub_fence_cons tag c s :
  re_sub_fence tag (c :: s) =
  match match_fence tag (c :: s) with
  | Some r => re_sub_fence tag r
  | None => c :: re_sub_fence tag s
  end.
Proof.
  simp re_sub_fence.
  generalize (inspect (match_fence tag (c :: s))).
  intros [[r|] e]; simp re_sub_fence; rewrite e; reflexivity.
Qed.

Lemma startswith_cons c s a p :
  startswith (c :: s) (a :: p) = ((a =? c)%N && startswith s p).
Proof. reflexivity. Qed.

Lemma contains_cons p c s :
  contains p (c :: s) = (startswith (c :: s) p || contains p s).
Proof. reflexivity. Qed.

Lemma startswith_iff s p :
  startswith s p = true <-> exists r, s = p ++ r.
Proof.
  revert s; induction p as [|a p IH]; intros s.
  - destruct s; simpl; split; eauto.
  - destruct s as [|b s]; simpl.
    + split; [discriminate | intros [r H]; discriminate].
    + rewrite andb_true_iff, N.eqb_eq, IH. split.
      * intros [-> [r ->]]. exists r. reflexivity.
      * intros [r H]. injection H as -> ->. eauto.
Qed.

Lemma cut_prefix_none p s :
  cut_prefix p s = None <-> startswith s p = false.
Proof.
  revert s; induction p as [|a p IH]; intros [|b s]; simpl;
    try (split; congruence).
  destruct (a =? b)%N; simpl; [apply IH | split; congruence].
Qed.

Lemma cut_prefix_some p s r : cut_prefix p s = Some r -> s = p ++ r.
Proof.
  revert s; induction p as [|a p IH]; intros [|b s]; simpl; try congruence.
  destruct (a =? b)%N eqn:E; [|discriminate].
  apply N.eqb_eq in E. subst b. intros H. f_equal. auto.
Qed.

Lemma endswith_iff s p :
  endswith s p = true <-> exists r, s = r ++ p.
Proof.
  unfold endswith. rewrite startswith_iff. split.
  - intros [r H]. exists (rev r).
    rewrite <- (rev_involutive s), H, rev_app_distr, rev_involutive.
    reflexivity.
  - intros [r ->]. exists (rev r). apply rev_app_distr.
Qed.

Lemma endswith_snoc s c : endswith (s ++ [c]) [c] = true.
Proof. apply endswith_iff. eauto. Qed.

(** [contains] is the sub-string relation. *)
Lemma contains_iff p s :
  contains p s = true <-> exists a b, s = a ++ p ++ b.
Proof.
  induction s as [|c s IH].
  - change (contains p []) with (startswith [] p || false).
    rewrite orb_false_r, startswith_iff. split.
    + intros [r H]. exists [], r. exact H.
    + intros (a & b & H). symmetry in H.
      apply app_eq_nil in H as [-> H]. exists b. symmetry. exact H.
  - change (contains p (c :: s))
      with (startswith (c :: s) p || contains p s).
    rewrite orb_true_iff, startswith_iff, IH. split.
    + intros [[r H] | (a & b & H)].
      * exists [], r. exact H.
      * exists (c :: a), b. simpl. f_equal. exact H.
    + intros ([|x a] & b & H); simpl in H.
      * left. eauto.
      * right. injection H as _ H. eauto.
Qed.

Lemma contains_inside p a s b :
  contains p s = true -> contains p (a ++ s ++ b) = true.
Proof.
  rewrite !contains_iff. intros (x & y & ->).
  exists (a ++ x), (y ++ b). now rewrite <- !app_assoc.
Qed.

Lemma not_contains_inside p a s b :
  contains p (a ++ s ++ b) = false -> contains p s = false.
Proof.
  intros H. destruct (contains p s) eqn:E; [|reflexivity].
  now rewrite (contains_inside p a s b E) in H.
Qed.

(** *** White space *)

Lemma lstrip_split s :
  exists ws, s = ws ++ lstrip s /\ forallb isspace ws = true.
Proof.
  induction s as [|c s (ws & H & Hws)]; simpl.
  - exists []. auto.
  - destruct (isspace c) eqn:E.
    + exists (c :: ws). simpl. rewrite E, Hws. split; [congruence | auto].
    + exists []. auto.
Qed.

Lemma lstrip_length s : length (lstrip s) <= length s.
Proof.
  induction s as [|c s IH]; simpl; [lia|].
  destruct (isspace c); simpl; lia.
Qed.

Lemma lstrip_fixed_head c s :
  lstrip (c :: s) = c :: s <-> isspace c = false.
Proof.
  simpl. destruct (isspace c) eqn:E; split; try congruence.
  intros H. pose proof (lstrip_length s) as L. rewrite H in L.
  simpl in L. lia.
Qed.

Lemma lstrip_idem s : lstrip (lstrip s) = lstrip s.
Proof.
  induction s as [|c s IH]; simpl; [reflexivity|].
  destruct (isspace c) eqn:E; [exact IH|].
  simpl. now rewrite E.
Qed.

Lemma lstrip_all_space s : forallb isspace s = true -> lstrip s = [].
Proof.
  induction s as [|c s IH]; simpl; [reflexivity|].
  rewrite andb_true_iff. intros [-> H]. auto.
Qed.

Lemma lstrip_fixed_app s u :
  s <> [] -> lstrip s = s -> lstrip (s ++ u) = s ++ u.
Proof.
  destruct s as [|c s]; [congruence|]. intros _ H.
  apply lstrip_fixed_head in H. simpl. now rewrite H.
Qed.

Lemma rstrip_split s :
  exists ws, s = rstrip s ++ ws /\ forallb isspace ws = true.
Proof.
  destruct (lstrip_split (rev s)) as (ws & H & Hws).
  exists (rev ws). split.
  - unfold rstrip. rewrite <- rev_app_distr, <- H.
    symmetry. apply rev_involutive.
  - rewrite forallb_forall in *. intros x Hx. apply Hws.
    now apply in_rev.
Qed.

Lemma lstrip_rstrip s : lstrip s = s -> lstrip (rstrip s) = rstrip s.
Proof.
  intros H. destruct (rstrip_split s) as (ws & E & _).
  destruct (rstrip s) as [|c r]; [reflexivity|].
  rewrite E in H. simpl in H. apply lstrip_fixed_head in H.
  now apply lstrip_fixed_head.
Qed.

Lemma strip_split s :
  exists a b, s = a ++ strip s ++ b
              /\ forallb isspace a = true /\ forallb isspace b = true.
Proof.
  destruct (lstrip_split s) as (a & Ha & Sa).
  destruct (rstrip_split (lstrip s)) as (b & Hb & Sb).
  exists a, b. unfold strip. rewrite <- Hb. auto.
Qed.

Lemma lstrip_strip s : lstrip (strip s) = strip s.
Proof. apply lstrip_rstrip, lstrip_idem. Qed.

Lemma lstrip_rev_strip s : lstrip (rev (strip s)) = rev (strip s).
Proof.
  unfold strip, rstrip. rewrite rev_involutive. apply lstrip_idem.
Qed.

Lemma strip_trimmed s :
  lstrip s = s -> lstrip (rev s) = rev s -> strip s = s.
Proof.
  intros H1 H2. unfold strip, rstrip. rewrite H1, H2.
  apply rev_involutive.
Qed.

Lemma strip_idem s : strip (strip s) = strip s.
Proof. apply strip_trimmed; [apply lstrip_strip | apply lstrip_rev_strip]. Qed.

Lemma strip_all_space s : forallb isspace s = true -> strip s = [].
Proof.
  intros H. unfold strip. now rewrite (lstrip_all_space _ H).
Qed.

Lemma strip_snoc_semi s : strip (strip s ++ [SEMI]) = strip s ++ [SEMI].
Proof.
  apply strip_trimmed.
  - destruct (strip s) as [|c r] eqn:E; [reflexivity|].
    rewrite <- E. apply lstrip_fixed_app; [congruence | apply lstrip_strip].
  - rewrite rev_app_distr. reflexivity.
Qed.

(** *** Fences *)

Lemma space_no_fence s : forallb isspace s = true -> contains fence s = false.
Proof.
  intros H. destruct (contains fence s) eqn:E; [|reflexivity].
  apply contains_iff in E as (a & b & ->).
  rewrite forallb_app in H. apply andb_true_iff in H as [_ H].
  cbv in H. discriminate H.
Qed.

Lemma strip_no_fence s : contains fence s = false -> contains fence (strip s) = false.
Proof.
  destruct (strip_split s) as (a & b & E & _). intros H.
  rewrite E in H. exact (not_contains_inside _ _ _ _ H).
Qed.

Lemma snoc_semi_no_fence s :
  contains fence s = false -> contains fence (s ++ [SEMI]) = false.
Proof.
  intros H. destruct (contains fence (s ++ [SEMI])) eqn:E; [|reflexivity].
  apply contains_iff in E as (a & b & E).
  destruct (rev b) as [|x b'] eqn:Eb.
  - apply (f_equal (@rev N)) in Eb. rewrite rev_involutive in Eb.
    subst b. change (a ++ fence ++ rev []) with (a ++ [TICK; TICK] ++ [TICK]) in E.
    rewrite app_assoc in E. apply app_inj_tail in E as [_ [=]].
  - apply (f_equal (@rev N)) in Eb. rewrite rev_involutive in Eb.
    simpl in Eb. subst b. rewrite !app_assoc in E.
    apply app_inj_tail in E as [E _].
    assert (contains fence s = true) as C
      by (apply contains_iff; exists a, (rev b'); now rewrite app_assoc).
    congruence.
Qed.

Lemma match_fence_none tag s :
  startswith s fence = false -> match_fence tag s = None.
Proof.
  intros H. unfold match_fence.
  destruct (cut_prefix (fence ++ tag) s) as [r|] eqn:E; [|reflexivity].
  apply cut_prefix_some in E.
  assert (startswith s fence = true) as C
    by (apply startswith_iff; exists (tag ++ r); now rewrite app_assoc).
  congruence.
Qed.

Lemma match_fence_nil_none s :
  match_fence [] s = None -> startswith s fence = false.
Proof.
  unfold match_fence. rewrite app_nil_r.
  destruct (cut_prefix fence s) as [[|c r]|] eqn:E.
  - discriminate.
  - destruct (c =? NL)%N; discriminate.
  - intros _. now apply cut_prefix_none.
Qed.

(** A text without fence is left alone by either substitution. *)
Lemma re_sub_fence_id tag s :
  contains fence s = false -> re_sub_fence tag s = s.
Proof.
  induction s as [|c s IH]; intros H.
  - now simp re_sub_fence.
  - rewrite contains_cons in H. apply orb_false_iff in H as [H1 H2].
    rewrite re_sub_fence_cons, (match_fence_none tag _ H1), (IH H2).
    reflexivity.
Qed.

Lemma re_sub_head1 s :
  startswith s [TICK] = false ->
  startswith (re_sub_fence [] s) [TICK] = false.
Proof.
  destruct s as [|c s]; intros H.
  - now simp re_sub_fence.
  - rewrite startswith_cons in H.
    destruct (TICK =? c)%N eqn:E; [simpl in H; discriminate H|].
    rewrite re_sub_fence_cons, match_fence_none.
    + rewrite startswith_cons, E. reflexivity.
    + unfold fence. rewrite startswith_cons, E. reflexivity.
Qed.

Lemma re_sub_head2 s :
  startswith s [TICK; TICK] = false ->
  startswith (re_sub_fence [] s) [TICK; TICK] = false.
Proof.
  destruct s as [|c s]; intros H.
  - now simp re_sub_fence.
  - rewrite startswith_cons in H.
    assert (startswith (c :: s) fence = false) as F.
    { unfold fence. rewrite startswith_cons.
      destruct (TICK =? c)%N; [|reflexivity].
      destruct s as [|d s]; [reflexivity|].
      rewrite startswith_cons in *.
      destruct (TICK =? d)%N; [discriminate H | reflexivity]. }
    rewrite re_sub_fence_cons, (match_fence_none [] _ F), startswith_cons.
    destruct (TICK =? c)%N; [|reflexivity].
    apply re_sub_head1. exact H.
Qed.

(** The second substitution leaves no fence behind. *)
Lemma re_sub_fence_no_fence s :
  contains fence (re_sub_fence [] s) = false.
Proof.
  remember (length s) as n eqn:L.
  revert s L. induction n as [n IH] using lt_wf_ind. intros s L.
  destruct s as [|c s].
  - now simp re_sub_fence.
  - rewrite re_sub_fence_cons.
    destruct (match_fence [] (c :: s)) as [r|] eqn:E.
    + apply (IH (length r)); [|reflexivity].
      subst n. exact (match_fence_shorter _ _ E).
    + apply match_fence_nil_none in E.
      rewrite contains_cons.
      rewrite (IH (length s)); [|subst n; simpl; lia | reflexivity].
      rewrite orb_false_r. unfold fence in *.
      rewrite startswith_cons in *.
      destruct (TICK =? c)%N; [|reflexivity].
      apply re_sub_head2. exact E.
Qed.

End StrFacts.

Import StrFacts.

(** * The sanitizer *)

Section Sanitizer.

Lemma clean_unfold s :
  _clean_sql_query s =
  if endswith (unfenced s) [SEMI] then unfenced s else unfenced s ++ [SEMI].
Proof.
  unfold _clean_sql_query, unfenced.
  change (py ";") with [SEMI].
  now destruct (endswith _ [SEMI]).
Qed.

Lemma unfenced_no_fence s : contains fence (unfenced s) = false.
Proof. apply strip_no_fence, re_sub_fence_no_fence. Qed.

Lemma clean_no_fence s : contains fence (_clean_sql_query s) = false.
Proof.
  rewrite clean_unfold. destruct (endswith (unfenced s) [SEMI]).
  - apply unfenced_no_fence.
  - apply snoc_semi_no_fence, unfenced_no_fence.
Qed.

Lemma clean_trimmed s : strip (_clean_sql_query s) = _clean_sql_query s.
Proof.
  rewrite clean_unfold. destruct (endswith (unfenced s) [SEMI]).
  - apply strip_idem.
  - apply strip_snoc_semi.
Qed.

Lemma clean_terminated s : endswith (_clean_sql_query s) [SEMI] = true.
Proof.
  rewrite clean_unfold. destruct (endswith (unfenced s) [SEMI]) eqn:E.
  - exact E.
  - apply endswith_snoc.
Qed.


(** The sanitizer changes nothing in what it returned. *)
Lemma clean_fixed s :
  _clean_sql_query (_clean_sql_query s) = _clean_sql_query s.
Proof.
  rewrite (clean_unfold (_clean_sql_query s)).
  assert (unfenced (_clean_sql_query s) = _clean_sql_query s) as ->.
  { unfold unfenced.
    rewrite !(re_sub_fence_id _ _ (clean_no_fence s)).
    apply clean_trimmed. }
  now rewrite clean_terminated.
Qed.




(** Two terminators can also come together when a fence between them is
    removed. *)
Example clean_joins_terminators :
  _clean_sql_query (py "SELECT 1;```;") = py "SELECT 1;;".
Proof. reflexivity. Qed.

(** The tests of [test_sql_query_cleaning]. *)
Example clean_markdown :
  _clean_sql_query (py "```sql
SELECT * FROM restaurants;
```") = py "SELECT * FROM restaurants;".
Proof. reflexivity. Qed.

Example clean_adds_semicolon :
  _clean_sql_query (py "SELECT * FROM restaurants")
  = py "SELECT * FROM restaurants;".
Proof. reflexivity. Qed.

Example clean_whitespace :
  _clean_sql_query (py "  SELECT * FROM restaurants;  ")
  = py "SELECT * FROM restaurants;".
Proof. reflexivity. Qed.

(** A fence without tag goes as well; a tag other than [sql] stays. *)
Example clean_untagged_fence :
  _clean_sql_query (py "```
SELECT 1
```") = py "SELECT 1;".
Proof. reflexivity. Qed.

Example clean_other_tag :
  _clean_sql_query (py "```sqlite
SELECT 1
```") = py "ite
SELECT 1;".
Proof. reflexivity. Qed.

(** C9: on a statement with no fence that already ends with the
    terminator, sanitizing twice gives what sanitizing once gives. *)
Theorem clean_sql_query_idempotent (s : pystr) :
  contains fence s = false ->
  endswith s (py ";") = true ->
  _clean_sql_query (_clean_sql_query s) = _clean_sql_query s.
Proof. intros _ _. apply clean_fixed. Qed.

Lemma clean_sql_query_idempotent_witness :
  _clean_sql_query (_clean_sql_query (py "  SELECT * FROM restaurants;"))
  = _clean_sql_query (py "  SELECT * FROM restaurants;").
Proof.
  apply (clean_sql_query_idempotent (py "  SELECT * FROM restaurants;"));
    reflexivity.
Defined.

End Sanitizer.

(** * The service *)

Section ServiceFacts.

Context {Cell : Type} (env : Env Cell).

(** ** Narration *)

Lemma generate_insights_returns q results w :
  exists insight w',
    generate_insights env q results w = (Ok insight, w')
    /\ statements w' = statements w
    /\ open_conns w' = open_conns w.
Proof.
  unfold generate_insights, try_except, bind, generate_content, ret.
  destruct (empty results); [eauto|].
  destruct (gemini env _ _); simpl; eauto.
Qed.

(** C5: on a table without rows the narration is the fixed sentence and
    the world is unchanged: nothing was sent to the model. *)
Theorem generate_insights_no_data q (results : DataFrame Cell) w :
  rows results = [] ->
  generate_insights env q results w
  = (Ok (py "No data found for the given query."), w).
Proof.
  intros H. unfold generate_insights, try_except, empty.
  rewrite H. simpl. rewrite orb_true_r. reflexivity.
Qed.

(** C7: on a table that is not empty, a model call that raises [msg]
    makes the narration return the error sentence with [msg] in it. *)
Theorem generate_insights_soft_fail q (results : DataFrame Cell) w msg :
  empty results = false ->
  gemini env (length (model_calls w))
         (insights_prompt q (_prepare_results_summary env results))
  = Raise msg ->
  exists w',
    generate_insights env q results w
    = (Ok (py "Error generating insights: " ++ msg), w').
Proof.
  intros E G.
  unfold generate_insights, try_except, bind, generate_content, ret.
  rewrite E, G. eauto.
Qed.

(** ** The executor *)

Lemma execute_sql_ok sql w table :
  sqlite env (connects w) = Ok tt ->
  sql_rows env (length (statements w)) sql = Ok table ->
  execute_sql env sql w
  = (Ok table,
     {| model_calls := model_calls w;
        connects := S (connects w);
        open_conns :=
          remove Nat.eq_dec (connects w) (connects w :: open_conns w);
        statements := statements w ++ [sql] |}).
Proof.
  intros C Q.
  unfold execute_sql, try_except, bind, sqlite3_connect, read_sql_query,
    conn_close, ret.
  rewrite C. simpl. rewrite Q. reflexivity.
Qed.

(** When the store raises, the connection stays in [open_conns]. *)
Lemma execute_sql_store_error sql w msg :
  sqlite env (connects w) = Ok tt ->
  sql_rows env (length (statements w)) sql = Raise msg ->
  execute_sql env sql w
  = (Raise (py "Error executing SQL: " ++ msg),
     {| model_calls := model_calls w;
        connects := S (connects w);
        open_conns := connects w :: open_conns w;
        statements := statements w ++ [sql] |}).
Proof.
  intros C Q.
  unfold execute_sql, try_except, bind, sqlite3_connect, read_sql_query,
    conn_close, ret, raise.
  rewrite C. simpl. rewrite Q. reflexivity.
Qed.

Lemma execute_sql_runs sql w :
  sqlite env (connects w) = Ok tt ->
  statements (snd (execute_sql env sql w)) = statements w ++ [sql].
Proof.
  intros C.
  destruct (sql_rows env (length (statements w)) sql) as [t|msg] eqn:Q.
  - now rewrite (execute_sql_ok _ _ _ C Q).
  - now rewrite (execute_sql_store_error _ _ _ C Q).
Qed.

End ServiceFacts.

Lemma generate_insights_no_data_witness :
  generate_insights silent_model_env (py "Who ordered most?") no_rows World0
  = (Ok (py "No data found for the given query."), World0).
Proof.
  apply (generate_insights_no_data silent_model_env). reflexivity.
Defined.

Lemma generate_insights_soft_fail_witness :
  exists w',
    generate_insights model_down_env (py "Who ordered most?") two_rows World0
    = (Ok (py "Error generating insights: API Error"), w').
Proof.
  apply (generate_insights_soft_fail model_down_env
           (py "Who ordered most?") two_rows World0 (py "API Error"));
    reflexivity.
Defined.

(** C2 fails on the code: when the store raises, [conn.close()] is
    skipped and the connection opened by the call is still open after
    [execute_sql] has raised. *)
Theorem execute_sql_leaks_connection :
  execute_sql missing_table_env (py "SELECT * FROM no_such_table;") World0
  = (Raise (py "Error executing SQL: no such table: no_such_table"),
     {| model_calls := [];
        connects := 1;
        open_conns := [0];
        statements := [py "SELECT * FROM no_such_table;"] |}).
Proof. reflexivity. Qed.

(** The path that succeeds does close it. *)
Example execute_sql_closes_on_success :
  execute_sql silent_model_env (py "SELECT * FROM restaurants;") World0
  = (Ok two_rows,
     {| model_calls := [];
        connects := 1;
        open_conns := [];
        statements := [py "SELECT * FROM restaurants;"] |}).
Proof. reflexivity. Qed.

(** ** Generation and the facade *)

Section Facade.

Context {Cell : Type} (env : Env Cell).

Lemma generate_sql_ok q w text :
  gemini env (length (model_calls w)) (_create_sql_prompt q) = Ok text ->
  exists w',
    generate_sql env q w = (Ok (_clean_sql_query (strip text)), w')
    /\ statements w' = statements w.
Proof.
  intros G. unfold generate_sql, try_except, bind, generate_content, ret.
  rewrite G. eauto.
Qed.

Lemma generate_sql_error q w msg :
  gemini env (length (model_calls w)) (_create_sql_prompt q) = Raise msg ->
  exists w',
    generate_sql env q w = (Raise (py "Error generating SQL: " ++ msg), w').
Proof.
  intros G. unfold generate_sql, try_except, bind, generate_content, raise.
  rewrite G. eauto.
Qed.

(** C3: the facade is generation, then execution of the generated
    statement, then narration of the question and the table; a failure of
    generation or execution is the outcome of the whole call, with the
    world as that stage left it.  No check stands between generation and
    execution: a generated statement that [validate_query_safety] rejects
    is run on the store all the same (whenever a connection is had). *)
Theorem process_query_is_pipeline q w :
  match generate_sql env q w with
  | (Raise e, w1) =>
      process_natural_language_query env q w = (Raise e, w1)
  | (Ok sql, w1) =>
      match execute_sql env sql w1 with
      | (Raise e, w2) =>
          process_natural_language_query env q w = (Raise e, w2)
      | (Ok table, w2) =>
          exists insight w3,
            generate_insights env q table w2 = (Ok insight, w3)
            /\ process_natural_language_query env q w
               = (Ok (sql, table, insight), w3)
      end
      /\ (sqlite env (connects w1) = Ok tt ->
          validate_query_safety env sql = false ->
          statements (snd (process_natural_language_query env q w))
          = statements w1 ++ [sql])
  end.
Proof.
  unfold process_natural_language_query, bind.
  destruct (generate_sql env q w) as [[sql|e] w1]; [|reflexivity].
  split.
  - destruct (execute_sql env sql w1) as [[table|e] w2]; [|reflexivity].
    destruct (generate_insights_returns env q table w2)
      as (insight & w3 & E & _).
    exists insight, w3. rewrite E. auto.
  - intros C _. pose proof (execute_sql_runs env sql w1 C) as R.
    destruct (execute_sql env sql w1) as [[table|e] w2]; [|exact R].
    destruct (generate_insights_returns env q table w2)
      as (insight & w3 & E & S & _).
    rewrite E. simpl in *. congruence.
Qed.

End Facade.

(** The statement reads the column [created_at]; the check rejects it
    and the facade runs it. *)
Lemma process_query_is_pipeline_witness :
  validate_query_safety created_at_env
    (py "SELECT name, created_at FROM restaurants;") = false
  /\ statements
       (snd (process_natural_language_query created_at_env
               (py "When was each restaurant created?") World0))
     = [py "SELECT name, created_at FROM restaurants;"].
Proof.
  split; [reflexivity|].
  pose proof (process_query_is_pipeline created_at_env
                (py "When was each restaurant created?") World0) as P.
  cbv beta iota zeta delta -[process_natural_language_query
      validate_query_safety statements snd app] in P.
  apply (proj2 P); reflexivity.
Defined.

(** C10: the sanitizer returns a text ending with the terminator on
    every input; on an empty or white-space-only input that text is the
    terminator alone, and so is the statement that [generate_sql] returns
    when the model answers with such a text. *)
Theorem clean_sql_query_total :
  (forall s, endswith (_clean_sql_query s) (py ";") = true)
  /\ (forall s, forallb isspace s = true -> _clean_sql_query s = py ";")
  /\ (forall (Cell : Type) (env : Env Cell) q w text,
        gemini env (length (model_calls w)) (_create_sql_prompt q)
        = Ok text ->
        forallb isspace text = true ->
        fst (generate_sql env q w) = Ok (py ";")).
Proof.
  assert (forall s, forallb isspace s = true -> _clean_sql_query s = py ";")
    as W.
  { intros s H. rewrite clean_unfold. unfold unfenced.
    rewrite !(re_sub_fence_id _ _ (space_no_fence s H)).
    now rewrite (strip_all_space s H). }
  repeat split.
  - apply clean_terminated.
  - exact W.
  - intros Cell env q w text G H.
    destruct (generate_sql_ok env q w text G) as (w' & -> & _).
    simpl. f_equal. apply W.
    now rewrite (strip_all_space text H).
Qed.

Lemma clean_sql_query_total_witness :
  _clean_sql_query (py "
  ") = py ";"
  /\ fst (generate_sql silent_model_env (py "Show me all restaurants")
            World0) = Ok (py ";").
Proof.
  destruct clean_sql_query_total as (_ & W & G). split.
  - apply W. reflexivity.
  - apply (G _ silent_model_env _ World0 []); reflexivity.
Defined.

(** Fences and nothing else also leave the terminator alone. *)
Example clean_only_fences :
  _clean_sql_query (py "```sql
```") = py ";".
Proof. reflexivity. Qed.

(** ** The keyword check *)

Section SafetyGate.

Context {Cell : Type} (env : Env Cell).

Lemma no_keyword_in_false kws s :
  no_keyword_in kws s = false
  <-> exists kw, In kw kws /\ contains kw s = true.
Proof.
  induction kws as [|k kws IH]; simpl.
  - split; [discriminate | intros (kw & [] & _)].
  - destruct (contains k s) eqn:E.
    + split; [eauto | reflexivity].
    + rewrite IH. split.
      * intros (kw & I & C). eauto.
      * intros (kw & [<- | I] & C); [congruence | eauto].
Qed.

Lemma lower_from_ascii before v rest :
  forallb is_ascii v = true ->
  lower_from env before (v ++ rest)
  = map ascii_lower v ++ lower_from env (before ++ v) rest.
Proof.
  revert before. induction v as [|c v IH]; intros before H; simpl.
  - now rewrite app_nil_r.
  - simpl in H. apply andb_true_iff in H as [A H].
    unfold is_ascii in A. rewrite A. simpl.
    rewrite (IH _ H), <- app_assoc. reflexivity.
Qed.

Lemma lower_from_inside before a v b :
  forallb is_ascii v = true ->
  exists x y, lower_from env before (a ++ v ++ b)
              = x ++ map ascii_lower v ++ y.
Proof.
  revert before. induction a as [|c a IH]; intros before H.
  - exists [], (lower_from env (before ++ v) b).
    simpl. now apply lower_from_ascii.
  - destruct (IH (before ++ [c]) H) as (x & y & E).
    simpl. rewrite E.
    eexists (_ ++ x), y. now rewrite <- app_assoc.
Qed.

(** C6: the check answers [false] exactly when one of the six keywords
    occurs in the lower-cased statement; hence it answers [false] on every
    statement in which a keyword is written in any mix of upper and lower
    case, wherever it stands. *)
Theorem validate_query_safety_iff :
  (forall s,
      validate_query_safety env s = false
      <-> exists kw a b,
            In kw dangerous_keywords /\ lower env s = a ++ kw ++ b)
  /\ (forall kw v a b,
        In kw dangerous_keywords ->
        forallb is_ascii v = true ->
        map ascii_lower v = kw ->
        validate_query_safety env (a ++ v ++ b) = false).
Proof.
  assert (forall s,
      validate_query_safety env s = false
      <-> exists kw a b,
            In kw dangerous_keywords /\ lower env s = a ++ kw ++ b) as I.
  { intros s. unfold validate_query_safety.
    rewrite no_keyword_in_false. split.
    - intros (kw & K & C). apply contains_iff in C as (a & b & C). eauto.
    - intros (kw & a & b & K & C). exists kw. split; [exact K|].
      apply contains_iff. eauto. }
  split; [exact I|].
  intros kw v a b K A L. apply I.
  destruct (lower_from_inside [] a v b A) as (x & y & E).
  exists kw, x, y. split; [exact K|].
  unfold lower. now rewrite E, L.
Qed.

End SafetyGate.

Lemma validate_query_safety_iff_witness :
  validate_query_safety created_at_env (py "DrOp TABLE restaurants;")
  = false.
Proof.
  apply (proj2 (validate_query_safety_iff created_at_env)
           (py "drop") (py "DrOp") [] (py " TABLE restaurants;")).
  - left. reflexivity.
  - reflexivity.
  - reflexivity.
Defined.

(** The statements of [test_validate_query_safety], and a keyword that
    stands only inside a string literal. *)
Example safe_queries :
  map (validate_query_safety created_at_env)
      [py "SELECT * FROM restaurants;";
       py "SELECT name, revenue FROM orders WHERE date > '2023-01-01';";
       py "SELECT COUNT(*) FROM customers;"]
  = [true; true; true].
Proof. reflexivity. Qed.

Example dangerous_queries :
  map (validate_query_safety created_at_env)
      [py "DROP TABLE restaurants;";
       py "DELETE FROM orders;";
       py "UPDATE customers SET name = 'hacked';";
       py "INSERT INTO restaurants VALUES (1, 'fake');";
       py "ALTER TABLE customers ADD COLUMN hacked TEXT;";
       py "CREATE TABLE malicious (id INT);"]
  = [false; false; false; false; false; false].
Proof. reflexivity. Qed.

Example keyword_in_literal :
  validate_query_safety created_at_env
    (py "SELECT * FROM reviews WHERE review_text = 'drop by again';")
  = false.
Proof. reflexivity. Qed.

(** ** Follow-up questions *)

Section Lines.

Lemma split_nl_nonempty s : exists l ls, split_nl s = l :: ls.
Proof.
  induction s as [|c s (l & ls & E)]; simpl; eauto.
  destruct (c =? NL)%N; eauto. rewrite E. eauto.
Qed.

Lemma strip_cons_space c l : isspace c = true -> strip (c :: l) = strip l.
Proof. intros H. unfold strip. simpl. now rewrite H. Qed.

Lemma lstrip_snoc_space c l :
  isspace c = true ->
  lstrip (l ++ [c]) = lstrip l ++ [c]
  \/ (lstrip (l ++ [c]) = [] /\ lstrip l = []).
Proof.
  intros H. induction l as [|a l IH]; simpl.
  - rewrite H. auto.
  - destruct (isspace a); auto.
Qed.

Lemma strip_snoc_space c l : isspace c = true -> strip (l ++ [c]) = strip l.
Proof.
  intros H. unfold strip, rstrip.
  destruct (lstrip_snoc_space c l H) as [-> | [-> ->]]; [|reflexivity].
  rewrite rev_app_distr. simpl. now rewrite H.
Qed.

Lemma strip_nil_all_space l : strip l = [] -> forallb isspace l = true.
Proof.
  intros H. destruct (strip_split l) as (a & b & E & A & B).
  rewrite E, H, !forallb_app, A, B. reflexivity.
Qed.

Lemma keep_nil : keep [] = false.
Proof. reflexivity. Qed.

Lemma keep_false q : keep q = false <-> strip q = [].
Proof.
  unfold keep, truthy. destruct (strip q); simpl; split; congruence.
Qed.

Lemma split_nl_cons c s :
  split_nl (c :: s) =
  if (c =? NL)%N then [] :: split_nl s
  else match split_nl s with
       | l :: ls => (c :: l) :: ls
       | [] => [[c]]
       end.
Proof. reflexivity. Qed.

Lemma kept_cons_space c s : isspace c = true -> kept (c :: s) = kept s.
Proof.
  intros H. unfold kept. rewrite split_nl_cons.
  destruct (c =? NL)%N.
  - cbn [filter]. now rewrite keep_nil.
  - destruct (split_nl_nonempty s) as (l & ls & ->). cbn [filter].
    assert (keep (c :: l) = keep l) as ->
      by (unfold keep; now rewrite (strip_cons_space c l H)).
    destruct (keep l); cbn [map]; [|reflexivity].
    now rewrite (strip_cons_space c l H).
Qed.

Lemma kept_lstrip s : kept (lstrip s) = kept s.
Proof.
  induction s as [|c s IH]; [reflexivity|]. simpl lstrip.
  destruct (isspace c) eqn:E; [|reflexivity].
  now rewrite IH, (kept_cons_space c s E).
Qed.

Lemma split_nl_snoc_nl s : split_nl (s ++ [NL]) = split_nl s ++ [[]].
Proof.
  induction s as [|c s IH]; [reflexivity|].
  rewrite <- app_comm_cons, !split_nl_cons, IH.
  destruct (c =? NL)%N; [reflexivity|].
  destruct (split_nl_nonempty s) as (l & ls & ->). reflexivity.
Qed.

Lemma split_nl_snoc c s :
  (c =? NL)%N = false ->
  exists init lst,
    split_nl s = init ++ [lst]
    /\ split_nl (s ++ [c]) = init ++ [lst ++ [c]].
Proof.
  intros H. induction s as [|a s (init & lst & E1 & E2)].
  - exists [], []. simpl. now rewrite H.
  - rewrite <- app_comm_cons, !split_nl_cons, E1, E2.
    destruct (a =? NL)%N.
    + exists ([] :: init), lst. auto.
    + destruct init as [|i init].
      * exists [], (a :: lst). auto.
      * exists ((a :: i) :: init), lst. auto.
Qed.

Lemma kept_snoc_space c s : isspace c = true -> kept (s ++ [c]) = kept s.
Proof.
  intros H. unfold kept. destruct (c =? NL)%N eqn:E.
  - apply N.eqb_eq in E. subst c.
    rewrite split_nl_snoc_nl, filter_app, map_app. cbn [filter].
    rewrite keep_nil. apply app_nil_r.
  - destruct (split_nl_snoc c s E) as (init & lst & -> & ->).
    rewrite !filter_app, !map_app. f_equal. cbn [filter].
    assert (keep (lst ++ [c]) = keep lst) as ->
      by (unfold keep; now rewrite (strip_snoc_space c lst H)).
    destruct (keep lst); cbn [map]; [|reflexivity].
    now rewrite (strip_snoc_space c lst H).
Qed.

Lemma kept_app_space s ws :
  forallb isspace ws = true -> kept (s ++ ws) = kept s.
Proof.
  induction ws as [|c ws IH] using rev_ind; intros H.
  - now rewrite app_nil_r.
  - rewrite forallb_app in H. apply andb_true_iff in H as [H1 H2].
    simpl in H2. rewrite andb_true_r in H2.
    rewrite app_assoc, (kept_snoc_space c _ H2). auto.
Qed.

(** Trimming the response first does not change what is kept. *)
Lemma kept_strip s : kept (strip s) = kept s.
Proof.
  unfold strip. destruct (rstrip_split (lstrip s)) as (ws & E & H).
  rewrite <- (kept_lstrip s). rewrite E at 2.
  symmetry. now apply kept_app_space.
Qed.

Lemma kept_nil_all_space s : kept s = [] -> forallb isspace s = true.
Proof.
  unfold kept. intros H. apply map_eq_nil in H. revert H.
  induction s as [|c s IH]; [reflexivity|].
  rewrite split_nl_cons. destruct (c =? NL)%N eqn:E.
  - apply N.eqb_eq in E. subst c. cbn [filter]. rewrite keep_nil.
    intros H. simpl. auto.
  - destruct (split_nl_nonempty s) as (l & ls & L). rewrite L in *.
    cbn [filter] in *. destruct (keep (c :: l)) eqn:K; [discriminate|].
    intros H. apply keep_false, strip_nil_all_space in K.
    simpl in K. apply andb_true_iff in K as [K1 K2].
    simpl. rewrite K1. apply IH.
    assert (keep l = false) as ->
      by (apply keep_false; now apply strip_all_space).
    exact H.
Qed.

Context {Cell : Type} (env : Env Cell).

Lemma get_related_questions_ok q (results : DataFrame Cell) w text :
  gemini env (length (model_calls w)) (related_prompt q results) = Ok text ->
  fst (get_related_questions env q results w)
  = Ok (firstn 5 (kept (strip text))).
Proof.
  intros G.
  unfold get_related_questions, try_except, bind, generate_content, ret.
  now rewrite G.
Qed.

Lemma get_related_questions_error q (results : DataFrame Cell) w msg :
  gemini env (length (model_calls w)) (related_prompt q results)
  = Raise msg ->
  fst (get_related_questions env q results w) = Ok fallback_questions.
Proof.
  intros G.
  unfold get_related_questions, try_except, bind, generate_content, ret.
  now rewrite G.
Qed.


(** C4, as the code has it: the call never raises and returns at most
    five strings; when the model raises it returns the five fall-back
    questions; when the model returns a text, the list is empty exactly
    when that text is empty or white space only. *)
Theorem get_related_questions_total q (results : DataFrame Cell) w :
  exists qs,
    fst (get_related_questions env q results w) = Ok qs
    /\ length qs <= 5
    /\ (forall msg,
          gemini env (length (model_calls w)) (related_prompt q results)
          = Raise msg ->
          qs = fallback_questions /\ length qs = 5)
    /\ (forall text,
          gemini env (length (model_calls w)) (related_prompt q results)
          = Ok text ->
          (qs = [] <-> forallb isspace text = true)).
Proof.
  destruct (gemini env (length (model_calls w)) (related_prompt q results))
    as [text|msg] eqn:G.
  - exists (firstn 5 (kept (strip text))). split; [|split; [|split]].
    + now apply get_related_questions_ok.
    + apply firstn_le_length.
    + discriminate.
    + intros ? [= <-]. split.
      * intros H. apply kept_nil_all_space. rewrite <- kept_strip.
        destruct (kept (strip text)); [reflexivity | discriminate H].
      * intros H. now rewrite (strip_all_space text H).
  - exists fallback_questions. split; [|split; [|split]].
    + now apply (get_related_questions_error q results w msg).
    + simpl. lia.
    + auto.
    + discriminate.
Qed.

End Lines.


Lemma get_related_questions_total_witness :
  exists qs,
    fst (get_related_questions model_down_env (py "test question")
           two_rows World0) = Ok qs
    /\ qs = fallback_questions /\ length qs = 5.
Proof.
  destruct (get_related_questions_total model_down_env
              (py "test question") two_rows World0)
    as (qs & E & _ & F & _).
  exists qs. split; [exact E|].
  apply (F (py "API Error")). reflexivity.
Defined.

(** C4 as worded fails: the model answers with an empty text, no
    exception is raised, and the list returned is empty. *)
Lemma get_related_questions_can_be_empty :
  fst (get_related_questions silent_model_env (py "test question")
         two_rows World0) = Ok [].
Proof. reflexivity. Qed.

(** A numbered answer keeps its numbering; more than five lines are cut
    to five. *)
Example related_questions_numbered :
  first_nonblank_lines (py "1. What are the peak hours?

  2. Which cuisine is most popular?
3
4
5
6")
  = [py "1. What are the peak hours?";
     py "2. Which cuisine is most popular?"; py "3"; py "4"; py "5"].
Proof. reflexivity. Qed.

(** * More on the sanitizer *)

Section SanitizerMore.

Lemma re_sub_nil tag : re_sub_fence tag [] = [].
Proof. now simp re_sub_fence. Qed.

Lemma space_not_tick c : isspace c = true -> (TICK =? c)%N = false.
Proof.
  intros H. destruct (TICK =? c)%N eqn:E; [|reflexivity].
  apply N.eqb_eq in E. subst c. discriminate H.
Qed.

Lemma strip_app_space_l ws s :
  forallb isspace ws = true -> strip (ws ++ s) = strip s.
Proof.
  induction ws as [|c ws IH]; [reflexivity|]. simpl.
  rewrite andb_true_iff. intros [H1 H2].
  now rewrite (strip_cons_space c _ H1), IH.
Qed.

Lemma strip_app_space_r s ws :
  forallb isspace ws = true -> strip (s ++ ws) = strip s.
Proof.
  induction ws as [|c ws IH] using rev_ind; intros H.
  - now rewrite app_nil_r.
  - rewrite forallb_app in H. apply andb_true_iff in H as [H1 H2].
    simpl in H2. rewrite andb_true_r in H2.
    rewrite app_assoc, (strip_snoc_space c _ H2). auto.
Qed.

Lemma re_sub_space_prefix tag ws s :
  forallb isspace ws = true ->
  re_sub_fence tag (ws ++ s) = ws ++ re_sub_fence tag s.
Proof.
  induction ws as [|c ws IH]; [reflexivity|]. simpl.
  rewrite andb_true_iff. intros [H1 H2].
  rewrite re_sub_fence_cons, match_fence_none, (IH H2); [reflexivity|].
  unfold fence. now rewrite startswith_cons, (space_not_tick c H1).
Qed.

Lemma cut_prefix_app_space p s ws :
  no_space p = true ->
  forallb isspace ws = true ->
  cut_prefix p (s ++ ws)
  = match cut_prefix p s with
    | Some r => Some (r ++ ws)
    | None => None
    end.
Proof.
  revert s. induction p as [|a p IH]; intros s P W.
  - destruct s; reflexivity.
  - simpl in P. apply andb_true_iff in P as [A P].
    destruct s as [|b s]; simpl.
    + destruct ws as [|c ws]; [reflexivity|].
      simpl in W. apply andb_true_iff in W as [C _].
      destruct (a =? c)%N eqn:E; [|reflexivity].
      apply N.eqb_eq in E. subst c. rewrite C in A. discriminate A.
    + destruct (a =? b)%N; [now apply IH | reflexivity].
Qed.

(** White space after the text stays after it, but for a line feed that
    a closing fence takes along. *)
Lemma re_sub_space_suffix tag s ws :
  no_space (fence ++ tag) = true ->
  forallb isspace ws = true ->
  exists ws',
    forallb isspace ws' = true
    /\ re_sub_fence tag (s ++ ws) = re_sub_fence tag s ++ ws'.
Proof.
  intros P W. remember (length s) as n eqn:L.
  revert s L. induction n as [n IH] using lt_wf_ind. intros s L.
  destruct s as [|c s].
  - exists ws. split; [exact W|]. simpl.
    now rewrite (re_sub_fence_id tag ws (space_no_fence ws W)).
  - rewrite <- app_comm_cons, !re_sub_fence_cons.
    unfold match_fence. rewrite app_comm_cons.
    rewrite (cut_prefix_app_space _ _ _ P W).
    destruct (cut_prefix (fence ++ tag) (c :: s)) as [[|d r]|] eqn:E.
    + exists (match ws with
              | x :: ws0 => if (x =? NL)%N then ws0 else ws
              | [] => []
              end).
      cbn [app]. rewrite (re_sub_nil tag).
      destruct ws as [|x ws0]; [now rewrite (re_sub_nil tag)|].
      simpl app. simpl in W. apply andb_true_iff in W as [W1 W2].
      destruct (x =? NL)%N.
      * split; [exact W2|]. apply re_sub_fence_id, space_no_fence, W2.
      * assert (forallb isspace (x :: ws0) = true) as W3
          by (simpl; now rewrite W1).
        split; [exact W3|]. apply re_sub_fence_id, space_no_fence, W3.
    + apply cut_prefix_length in E. rewrite <- app_comm_cons.
      destruct (d =? NL)%N.
      * apply (IH (length r)); [|reflexivity].
        subst n. simpl in *. lia.
      * apply (IH (length (d :: r))) with (s := d :: r); [|reflexivity].
        subst n. simpl in *. lia.
    + destruct (IH (length s)) with (s := s) as (ws' & W' & R);
        [subst n; simpl; lia | reflexivity |].
      exists ws'. split; [exact W'|]. rewrite R. reflexivity.
Qed.

Lemma unfenced_space a s b :
  forallb isspace a = true ->
  forallb isspace b = true ->
  unfenced (a ++ s ++ b) = unfenced s.
Proof.
  intros A B. unfold unfenced.
  rewrite (re_sub_space_prefix _ a _ A).
  destruct (re_sub_space_suffix (py "sql") s b eq_refl B) as (b1 & B1 & ->).
  rewrite (re_sub_space_prefix _ a _ A).
  destruct (re_sub_space_suffix [] (re_sub_fence (py "sql") s) b1 eq_refl B1)
    as (b2 & B2 & ->).
  now rewrite (strip_app_space_l a _ A), (strip_app_space_r _ b2 B2).
Qed.

(** X1: white space around the response does not matter to the sanitizer;
    in particular the [strip] that [generate_sql] applies before it changes
    nothing. *)
Theorem clean_sql_query_ignores_outer_space :
  (forall a s b,
      forallb isspace a = true ->
      forallb isspace b = true ->
      _clean_sql_query (a ++ s ++ b) = _clean_sql_query s)
  /\ (forall s, _clean_sql_query (strip s) = _clean_sql_query s).
Proof.
  assert (forall a s b,
      forallb isspace a = true ->
      forallb isspace b = true ->
      _clean_sql_query (a ++ s ++ b) = _clean_sql_query s) as H.
  { intros a s b A B. now rewrite !clean_unfold, (unfenced_space a s b A B). }
  split; [exact H|].
  intros s. destruct (strip_split s) as (a & b & E & A & B).
  rewrite E at 2. symmetry. now apply H.
Qed.

Lemma clean_sql_query_ignores_outer_space_witness :
  _clean_sql_query (py "
  " ++ py "SELECT 1" ++ py "
")
  = _clean_sql_query (py "SELECT 1").
Proof.
  apply (proj1 clean_sql_query_ignores_outer_space); reflexivity.
Defined.

(** X2: the texts that the sanitizer returns unchanged are exactly those
    with no fence, no white space around them and a terminator at the
    end. *)
Theorem clean_sql_query_fixed_points (s : pystr) :
  _clean_sql_query s = s
  <-> contains fence s = false
      /\ strip s = s
      /\ endswith s (py ";") = true.
Proof.
  change (py ";") with [SEMI]. split.
  - intros H. rewrite <- H.
    auto using clean_no_fence, clean_trimmed, clean_terminated.
  - intros (F & T & E). rewrite clean_unfold. unfold unfenced.
    rewrite !(re_sub_fence_id _ _ F), T, E. reflexivity.
Qed.

Lemma clean_sql_query_fixed_points_witness :
  _clean_sql_query (py "SELECT name FROM restaurants LIMIT 5;")
  = py "SELECT name FROM restaurants LIMIT 5;".
Proof.
  apply (proj2 (clean_sql_query_fixed_points
                  (py "SELECT name FROM restaurants LIMIT 5;"))).
  repeat split; reflexivity.
Defined.

(** A stretch without fence, closed by a character that is no backtick,
    passes through either substitution. *)
Lemma re_sub_pass tag pre c rest :
  contains fence pre = false ->
  (TICK =? c)%N = false ->
  re_sub_fence tag (pre ++ c :: rest) = pre ++ c :: re_sub_fence tag rest.
Proof.
  intros F C. induction pre as [|p0 pre IH]; simpl.
  - rewrite re_sub_fence_cons, match_fence_none; [reflexivity|].
    unfold fence. now rewrite startswith_cons, C.
  - rewrite contains_cons in F. apply orb_false_iff in F as [F1 F2].
    rewrite re_sub_fence_cons, match_fence_none, (IH F2); [reflexivity|].
    unfold fence in *. rewrite startswith_cons in *.
    destruct (TICK =? p0)%N; [|reflexivity].
    destruct pre as [|p1 pre]; simpl app.
    + now rewrite startswith_cons, C.
    + rewrite startswith_cons in *.
      destruct (TICK =? p1)%N; [|reflexivity].
      destruct pre as [|p2 pre]; simpl app.
      * now rewrite startswith_cons, C.
      * rewrite startswith_cons in *. exact F1.
Qed.

Lemma unfenced_closing_fence body :
  contains fence body = false ->
  strip (re_sub_fence [] (re_sub_fence (py "sql") (body ++ NL :: fence)))
  = unfenced body.
Proof.
  intros F. unfold unfenced.
  rewrite (re_sub_pass _ body NL fence F eq_refl).
  change (re_sub_fence (py "sql") fence) with fence.
  rewrite (re_sub_pass _ body NL fence F eq_refl).
  change (re_sub_fence [] fence) with (@nil N).
  rewrite !(re_sub_fence_id _ _ F).
  apply (strip_app_space_r body [NL]). reflexivity.
Qed.

(** X3: a statement wrapped in a fence, with the tag [sql] or with none,
    is sanitized to what the statement alone is sanitized to, whenever the
    statement has no three backticks in a row. *)
Theorem clean_sql_query_unwraps_fence (body : pystr) :
  contains fence body = false ->
  _clean_sql_query (py "```sql" ++ [NL] ++ body ++ [NL] ++ py "```")
  = _clean_sql_query body
  /\ _clean_sql_query (py "```" ++ [NL] ++ body ++ [NL] ++ py "```")
     = _clean_sql_query body.
Proof.
  intros F. rewrite !clean_unfold.
  assert (unfenced (py "```sql" ++ [NL] ++ body ++ [NL] ++ py "```")
          = unfenced body) as ->.
  { rewrite <- (unfenced_closing_fence body F). unfold unfenced.
    change (py "```sql" ++ [NL] ++ body ++ [NL] ++ py "```")
      with (TICK :: [TICK; TICK; 115; 113; 108; NL]%N
                    ++ body ++ NL :: fence).
    rewrite re_sub_fence_cons. reflexivity. }
  assert (unfenced (py "```" ++ [NL] ++ body ++ [NL] ++ py "```")
          = unfenced body) as ->.
  { rewrite <- (unfenced_closing_fence body F). unfold unfenced.
    change (py "```" ++ [NL] ++ body ++ [NL] ++ py "```")
      with (TICK :: TICK :: TICK :: [] ++ NL :: body ++ NL :: fence).
    rewrite 3!re_sub_fence_cons.
    change (match_fence (py "sql")
              (TICK :: TICK :: TICK :: [] ++ NL :: body ++ NL :: fence))
      with (@None pystr).
    change (match_fence (py "sql")
              (TICK :: TICK :: [] ++ NL :: body ++ NL :: fence))
      with (@None pystr).
    change (match_fence (py "sql") (TICK :: [] ++ NL :: body ++ NL :: fence))
      with (@None pystr).
    rewrite (re_sub_pass _ [] NL _ eq_refl eq_refl).
    simpl app. rewrite re_sub_fence_cons. reflexivity. }
  auto.
Qed.

Lemma clean_sql_query_unwraps_fence_witness :
  _clean_sql_query
    (py "```sql" ++ [NL] ++ py "SELECT `name` FROM restaurants" ++ [NL]
        ++ py "```")
  = _clean_sql_query (py "SELECT `name` FROM restaurants").
Proof.
  apply (proj1 (clean_sql_query_unwraps_fence
                  (py "SELECT `name` FROM restaurants") eq_refl)).
Defined.

End SanitizerMore.

Section OnlyDeletes.

Lemma match_fence_suffix tag s r :
  match_fence tag s = Some r -> exists pre, s = pre ++ r.
Proof.
  unfold match_fence.
  destruct (cut_prefix (fence ++ tag) s) as [[|c t]|] eqn:E; try discriminate.
  - intros [= <-]. apply cut_prefix_some in E. eauto.
  - apply cut_prefix_some in E.
    destruct (c =? NL)%N; intros [= <-].
    + exists ((fence ++ tag) ++ [c]). now rewrite <- app_assoc.
    + eauto.
Qed.

(** Order matters to [subseq]. *)
Example subseq_keeps_order : ~ subseq (py "ba") (py "ab").
Proof.
  intros H. cbv in H.
  repeat match goal with
         | H : subseq _ _ |- _ => inversion H; clear H; subst
         end.
Qed.

Lemma subseq_refl s : subseq s s.
Proof. induction s; [apply subseq_nil | now apply subseq_keep]. Qed.

Lemma subseq_nil_l s : subseq [] s.
Proof. induction s; [apply subseq_nil | now apply subseq_skip]. Qed.

Lemma subseq_after pre t s : subseq t s -> subseq t (pre ++ s).
Proof.
  intros H. induction pre; simpl; [exact H | now apply subseq_skip].
Qed.

Lemma subseq_before t s post : subseq t s -> subseq t (s ++ post).
Proof.
  induction 1; simpl.
  - apply subseq_nil_l.
  - now apply subseq_skip.
  - now apply subseq_keep.
Qed.

Lemma subseq_snoc t s c : subseq t s -> subseq (t ++ [c]) (s ++ [c]).
Proof.
  induction 1; simpl.
  - apply subseq_keep, subseq_nil.
  - now apply subseq_skip.
  - now apply subseq_keep.
Qed.

Lemma subseq_trans t s u : subseq t s -> subseq s u -> subseq t u.
Proof.
  intros H1 H2. revert t H1.
  induction H2 as [|c s u H2 IH|c s u H2 IH]; intros t H1.
  - exact H1.
  - apply subseq_skip. auto.
  - inversion H1; subst; [apply subseq_skip | apply subseq_keep]; auto.
Qed.

Lemma subseq_length t s : subseq t s -> length t <= length s.
Proof. induction 1; simpl; lia. Qed.

Lemma re_sub_subseq tag s : subseq (re_sub_fence tag s) s.
Proof.
  remember (length s) as n eqn:L.
  revert s L. induction n as [n IH] using lt_wf_ind. intros s L.
  destruct s as [|c s]; [rewrite re_sub_nil; apply subseq_nil|].
  rewrite re_sub_fence_cons.
  destruct (match_fence tag (c :: s)) as [r|] eqn:E.
  - destruct (match_fence_suffix _ _ _ E) as (pre & P). rewrite P.
    apply subseq_after. apply (IH (length r)); [|reflexivity].
    subst n. exact (match_fence_shorter _ _ E).
  - apply subseq_keep. apply (IH (length s)); [|reflexivity].
    subst n. simpl. lia.
Qed.

Lemma strip_subseq s : subseq (strip s) s.
Proof.
  destruct (strip_split s) as (a & b & E & _). rewrite E at 2.
  apply subseq_after, subseq_before, subseq_refl.
Qed.

Lemma strip_incl s x : In x (strip s) -> In x s.
Proof.
  destruct (strip_split s) as (a & b & E & _). intros H.
  rewrite E. apply in_or_app. right. apply in_or_app. now left.
Qed.

Lemma unfenced_subseq s : subseq (unfenced s) s.
Proof.
  unfold unfenced.
  eapply subseq_trans; [apply strip_subseq|].
  eapply subseq_trans; apply re_sub_subseq.
Qed.

(** X4: the sanitizer only deletes, apart from the terminator it may
    append: its result is got from the response by deleting characters and
    keeping the others in their order, with at most the one terminator
    appended; so it is at most one character longer than the response. *)
Theorem clean_sql_query_only_deletes (s : pystr) :
  (exists body,
      subseq body s
      /\ (_clean_sql_query s = body \/ _clean_sql_query s = body ++ py ";"))
  /\ subseq (_clean_sql_query s) (s ++ py ";")
  /\ length (_clean_sql_query s) <= length s + 1.
Proof.
  change (py ";") with [SEMI].
  pose proof (unfenced_subseq s) as U.
  assert (subseq (_clean_sql_query s) (s ++ [SEMI])) as S.
  { rewrite clean_unfold. destruct (endswith (unfenced s) [SEMI]).
    - now apply subseq_before.
    - now apply subseq_snoc. }
  split; [|split].
  - exists (unfenced s). split; [exact U|].
    rewrite clean_unfold. destruct (endswith (unfenced s) [SEMI]); auto.
  - exact S.
  - apply subseq_length in S. rewrite length_app in S. exact S.
Qed.

End OnlyDeletes.

(** * Effects of the service calls *)

Section Effects.

Context {Cell : Type} (env : Env Cell).

Lemma generate_sql_run q w :
  model_calls (snd (generate_sql env q w))
  = model_calls w ++ [_create_sql_prompt q]
  /\ connects (snd (generate_sql env q w)) = connects w
  /\ open_conns (snd (generate_sql env q w)) = open_conns w
  /\ statements (snd (generate_sql env q w)) = statements w
  /\ match fst (generate_sql env q w) with
     | Ok sql => _clean_sql_query sql = sql
     | Raise e => exists msg, e = py "Error generating SQL: " ++ msg
     end.
Proof.
  unfold generate_sql, try_except, bind, generate_content, ret, raise.
  destruct (gemini env _ _) as [text|msg]; cbn [fst snd model_calls connects
    open_conns statements]; repeat split; eauto using clean_fixed.
Qed.

(** X5: [generate_sql] sends its prompt to the model and nothing else
    happens: the store is not touched.  A statement it returns is one the
    sanitizer leaves unchanged; an error it raises carries the tag of the
    generation stage. *)
Theorem generate_sql_effects q w :
  model_calls (snd (generate_sql env q w))
  = model_calls w ++ [_create_sql_prompt q]
  /\ connects (snd (generate_sql env q w)) = connects w
  /\ open_conns (snd (generate_sql env q w)) = open_conns w
  /\ statements (snd (generate_sql env q w)) = statements w
  /\ match fst (generate_sql env q w) with
     | Ok sql => _clean_sql_query sql = sql
     | Raise e => exists msg, e = py "Error generating SQL: " ++ msg
     end.
Proof. exact (generate_sql_run q w). Qed.

Lemma generate_insights_run q (results : DataFrame Cell) w :
  exists insight w',
    generate_insights env q results w = (Ok insight, w')
    /\ connects w' = connects w
    /\ open_conns w' = open_conns w
    /\ statements w' = statements w
    /\ model_calls w'
       = (if empty results then model_calls w
          else model_calls w
               ++ [insights_prompt q (_prepare_results_summary env results)])
    /\ (forall text,
          empty results = false ->
          gemini env (length (model_calls w))
                 (insights_prompt q (_prepare_results_summary env results))
          = Ok text ->
          insight = strip text).
Proof.
  unfold generate_insights, try_except, bind, generate_content, ret.
  destruct (empty results).
  - do 2 eexists. repeat split; discriminate.
  - destruct (gemini env _ _) as [text|msg]; do 2 eexists;
      (repeat split; [intros ? _ [=]; subst; reflexivity]).
Qed.

(** X6: [generate_insights] never raises and never touches the store; it
    sends at most one prompt, the one built from the question and the
    summary of the table, and none on an empty table; when the model
    answers that prompt, its text is handed on trimmed. *)
Theorem generate_insights_effects q (results : DataFrame Cell) w :
  exists insight w',
    generate_insights env q results w = (Ok insight, w')
    /\ connects w' = connects w
    /\ open_conns w' = open_conns w
    /\ statements w' = statements w
    /\ (empty results = true -> model_calls w' = model_calls w)
    /\ (model_calls w' = model_calls w
        \/ model_calls w'
           = model_calls w
             ++ [insights_prompt q (_prepare_results_summary env results)])
    /\ (forall text,
          empty results = false ->
          gemini env (length (model_calls w))
                 (insights_prompt q (_prepare_results_summary env results))
          = Ok text ->
          insight = strip text).
Proof.
  destruct (generate_insights_run q results w)
    as (insight & w' & E & C & O & S & M & T).
  exists insight, w'. repeat (split; [assumption|]).
  split; [intros H; now rewrite H in M|].
  split; [destruct (empty results); auto | exact T].
Qed.

(** ** Follow-up questions, one by one *)

Lemma split_nl_no_nl s l : In l (split_nl s) -> ~ In NL l.
Proof.
  revert l. induction s as [|c s IH]; intros l.
  - intros [<- | []]. auto.
  - rewrite split_nl_cons. destruct (c =? NL)%N eqn:E.
    + intros [<- | H]; auto.
    + destruct (split_nl s) as [|l0 ls] eqn:S.
      * intros [<- | []]. intros [-> | []]. now rewrite N.eqb_refl in E.
      * intros [<- | H].
        -- intros [-> | H]; [now rewrite N.eqb_refl in E|].
           apply (IH l0); simpl; auto.
        -- apply IH. simpl. auto.
Qed.

Lemma kept_lines s x :
  In x (kept s) -> x <> [] /\ strip x = x /\ ~ In NL x.
Proof.
  unfold kept. intros H. apply in_map_iff in H as (l & <- & H).
  apply filter_In in H as [H K]. repeat split.
  - unfold keep, truthy in K. destruct (strip l); [discriminate K | congruence].
  - apply strip_idem.
  - intros N. apply strip_incl in N. exact (split_nl_no_nl _ _ H N).
Qed.

Lemma fallback_lines x :
  In x fallback_questions -> x <> [] /\ strip x = x /\ ~ In NL x.
Proof.
  intros H. unfold fallback_questions in H.
  destruct H as [<-|[<-|[<-|[<-|[<-|[]]]]]];
    (split; [discriminate | split; [reflexivity|]]);
    intros N; cbv in N; intuition discriminate.
Qed.

(** X7: whatever the model does, [get_related_questions] never raises,
    sends at most one prompt, its own, leaves the store alone, and every
    question it returns, from the model or from the fall-back list, is a
    single line: not empty, no white space around it, no line feed in
    it. *)
Theorem get_related_questions_single_lines q (results : DataFrame Cell) w :
  exists qs w',
    get_related_questions env q results w = (Ok qs, w')
    /\ (model_calls w' = model_calls w
        \/ model_calls w' = model_calls w ++ [related_prompt q results])
    /\ connects w' = connects w
    /\ open_conns w' = open_conns w
    /\ statements w' = statements w
    /\ (forall x, In x qs -> x <> [] /\ strip x = x /\ ~ In NL x).
Proof.
  unfold get_related_questions, try_except, bind, generate_content, ret.
  destruct (gemini env _ _) as [text|msg]; do 2 eexists;
    (split; [reflexivity|]); (split; [right; reflexivity|]);
    do 3 (split; [reflexivity|]).
  - intros x H. apply (kept_lines (strip text)).
    change (In x (firstn 5 (kept (strip text)))) in H.
    rewrite <- (firstn_skipn 5 (kept (strip text))).
    apply in_or_app. now left.
  - apply fallback_lines.
Qed.

End Effects.

Lemma generate_insights_effects_witness :
  exists insight w',
    generate_insights created_at_env (py "Who leads?") two_rows World0
    = (Ok insight, w')
    /\ insight = strip (py "SELECT name, created_at FROM restaurants;").
Proof.
  destruct (generate_insights_effects created_at_env (py "Who leads?")
              two_rows World0)
    as (insight & w' & E & _ & _ & _ & _ & _ & T).
  exists insight, w'. split; [exact E|].
  apply T; reflexivity.
Defined.

Lemma get_related_questions_single_lines_witness :
  py "What are the peak hours?" <> []
  /\ strip (py "What are the peak hours?") = py "What are the peak hours?"
  /\ ~ In NL (py "What are the peak hours?").
Proof.
  destruct (get_related_questions_single_lines three_questions_env
              (py "What next?") two_rows World0)
    as (qs & w' & E & _ & _ & _ & _ & L).
  cbv in E. injection E as <- _.
  apply L. left. reflexivity.
Defined.

(** * Connections *)

Section Connections.

Context {Cell : Type} (env : Env Cell).

Lemma fresh_not_open w :
  handles_fresh w = true -> ~ In (connects w) (open_conns w).
Proof.
  unfold handles_fresh. rewrite forallb_forall. intros H I.
  apply H in I. apply Nat.ltb_lt in I. lia.
Qed.

Lemma fresh_after_connect w opened :
  handles_fresh w = true ->
  (opened = open_conns w \/ opened = connects w :: open_conns w) ->
  forallb (fun h => h <? S (connects w)) opened = true.
Proof.
  unfold handles_fresh. rewrite !forallb_forall. intros H O x I.
  apply Nat.ltb_lt.
  destruct O as [-> | ->]; [|destruct I as [<- | I]; [lia|]];
    apply H, Nat.ltb_lt in I; lia.
Qed.

Lemma execute_sql_account sql w :
  handles_fresh w = true ->
  handles_fresh (snd (execute_sql env sql w)) = true
  /\ connects (snd (execute_sql env sql w)) = S (connects w)
  /\ model_calls (snd (execute_sql env sql w)) = model_calls w
  /\ match fst (execute_sql env sql w) with
     | Ok table =>
         sql_rows env (length (statements w)) sql = Ok table
         /\ statements (snd (execute_sql env sql w)) = statements w ++ [sql]
         /\ open_conns (snd (execute_sql env sql w)) = open_conns w
     | Raise e =>
         exists msg,
           e = py "Error executing SQL: " ++ msg
           /\ ((sqlite env (connects w) = Raise msg
                /\ statements (snd (execute_sql env sql w)) = statements w
                /\ open_conns (snd (execute_sql env sql w)) = open_conns w)
               \/ (sql_rows env (length (statements w)) sql = Raise msg
                   /\ statements (snd (execute_sql env sql w))
                      = statements w ++ [sql]
                   /\ open_conns (snd (execute_sql env sql w))
                      = connects w :: open_conns w))
     end.
Proof.
  intros F.
  destruct (sqlite env (connects w)) as [[]|msg] eqn:C.
  - destruct (sql_rows env (length (statements w)) sql) as [t|msg] eqn:Q.
    + rewrite (execute_sql_ok env sql w t C Q).
      cbn [fst snd connects open_conns statements model_calls handles_fresh].
      rewrite remove_cons, (notin_remove _ _ _ (fresh_not_open w F)).
      repeat split. unfold handles_fresh. apply fresh_after_connect; auto.
    + rewrite (execute_sql_store_error env sql w msg C Q).
      cbn [fst snd connects open_conns statements model_calls].
      repeat split; [unfold handles_fresh; apply fresh_after_connect; auto|].
      exists msg. split; [reflexivity|]. right. auto.
  - unfold execute_sql, try_except, bind, sqlite3_connect, raise.
    rewrite C.
    cbn [fst snd connects open_conns statements model_calls].
    repeat split; [unfold handles_fresh; apply fresh_after_connect; auto|].
    exists msg. split; [reflexivity|]. left. auto.
Qed.

(** X8: the account of connections kept by [execute_sql], from a world in
    which every open connection came from an earlier [connect].  The call
    connects once and that property still holds after it.  When it returns
    a table, that is the table the store gave for exactly the statement
    passed in, run once, and the open connections are those of before.
    When it raises, the message carries the tag of the execution stage and
    either the connection failed, and no statement reached the store, or
    the store refused the statement, and one more connection is open than
    before. *)
Theorem execute_sql_accounting sql w :
  handles_fresh w = true ->
  handles_fresh (snd (execute_sql env sql w)) = true
  /\ connects (snd (execute_sql env sql w)) = S (connects w)
  /\ model_calls (snd (execute_sql env sql w)) = model_calls w
  /\ match fst (execute_sql env sql w) with
     | Ok table =>
         sql_rows env (length (statements w)) sql = Ok table
         /\ statements (snd (execute_sql env sql w)) = statements w ++ [sql]
         /\ open_conns (snd (execute_sql env sql w)) = open_conns w
     | Raise e =>
         exists msg,
           e = py "Error executing SQL: " ++ msg
           /\ ((sqlite env (connects w) = Raise msg
                /\ statements (snd (execute_sql env sql w)) = statements w
                /\ open_conns (snd (execute_sql env sql w)) = open_conns w)
               \/ (sql_rows env (length (statements w)) sql = Raise msg
                   /\ statements (snd (execute_sql env sql w))
                      = statements w ++ [sql]
                   /\ open_conns (snd (execute_sql env sql w))
                      = connects w :: open_conns w))
     end.
Proof. exact (execute_sql_account sql w). Qed.

End Connections.

Lemma execute_sql_accounting_witness :
  open_conns
    (snd (execute_sql silent_model_env (py "SELECT * FROM restaurants;")
            World0))
  = open_conns World0.
Proof.
  pose proof (execute_sql_accounting silent_model_env
                (py "SELECT * FROM restaurants;") World0 eq_refl) as A.
  cbv beta iota zeta delta [fst] in A.
  change (fst (execute_sql silent_model_env
                 (py "SELECT * FROM restaurants;") World0))
    with (@Ok (DataFrame pystr) two_rows) in A.
  apply A.
Defined.

(** * The facade and the endpoint, stage by stage *)

Section Stages.

Context {Cell : Type} (env : Env Cell).

Lemma get_related_questions_run q (results : DataFrame Cell) w :
  exists qs w',
    get_related_questions env q results w = (Ok qs, w')
    /\ length qs <= 5
    /\ model_calls w' = model_calls w ++ [related_prompt q results]
    /\ connects w' = connects w
    /\ open_conns w' = open_conns w
    /\ statements w' = statements w.
Proof.
  unfold get_related_questions, try_except, bind, generate_content, ret.
  destruct (gemini env _ _) as [text|msg]; do 2 eexists;
    (split; [reflexivity|]); (split; [|auto]).
  - apply firstn_le_length.
  - simpl. lia.
Qed.

Lemma execute_sql_frame sql w :
  connects (snd (execute_sql env sql w)) = S (connects w)
  /\ model_calls (snd (execute_sql env sql w)) = model_calls w
  /\ match fst (execute_sql env sql w) with
     | Ok _ => statements (snd (execute_sql env sql w)) = statements w ++ [sql]
     | Raise e => exists msg, e = py "Error executing SQL: " ++ msg
     end.
Proof.
  unfold execute_sql, try_except, bind, sqlite3_connect, read_sql_query,
    conn_close, ret, raise.
  destruct (sqlite env (connects w)) as [[]|msg]; [|simpl; eauto].
  cbn [fst snd connects model_calls statements].
  destruct (sql_rows env _ sql); simpl; eauto.
Qed.

Lemma handles_fresh_frame w w' :
  connects w' = connects w -> open_conns w' = open_conns w ->
  handles_fresh w' = handles_fresh w.
Proof. unfold handles_fresh. now intros -> ->. Qed.

(** The three ways a call of the facade can go. *)
Lemma process_cases q w :
  (exists msg w',
      process_natural_language_query env q w
      = (Raise (py "Error generating SQL: " ++ msg), w')
      /\ model_calls w' = model_calls w ++ [_create_sql_prompt q]
      /\ connects w' = connects w
      /\ open_conns w' = open_conns w
      /\ statements w' = statements w)
  \/ (exists msg w',
        process_natural_language_query env q w
        = (Raise (py "Error executing SQL: " ++ msg), w')
        /\ model_calls w' = model_calls w ++ [_create_sql_prompt q]
        /\ connects w' = S (connects w))
  \/ (exists sql table insight w',
        process_natural_language_query env q w
        = (Ok (sql, table, insight), w')
        /\ _clean_sql_query sql = sql
        /\ statements w' = statements w ++ [sql]
        /\ connects w' = S (connects w)
        /\ model_calls w'
           = (model_calls w ++ [_create_sql_prompt q])
             ++ (if empty table then []
                 else [insights_prompt q
                         (_prepare_results_summary env table)])
        /\ (handles_fresh w = true -> open_conns w' = open_conns w)).
Proof.
  unfold process_natural_language_query, bind.
  destruct (generate_sql_run env q w) as (G1 & G2 & G3 & G4 & G5).
  destruct (generate_sql env q w) as [[sql|e] w1]; simpl in *.
  - pose proof (execute_sql_frame sql w1) as (E1 & E2 & E3).
    pose proof (execute_sql_account env sql w1) as A.
    rewrite (handles_fresh_frame w w1 G2 G3) in A.
    destruct (execute_sql env sql w1) as [[table|e] w2]; simpl in *.
    + destruct (generate_insights_run env q table w2)
        as (insight & w3 & I & I1 & I2 & I3 & I4 & _).
      right. right. exists sql, table, insight, w3. rewrite I.
      repeat split; try congruence.
      * rewrite I4, E2, G1. destruct (empty table);
          [now rewrite app_nil_r | reflexivity].
      * intros F. destruct (A F) as (_ & _ & _ & _ & _ & O). congruence.
    + destruct E3 as (msg & ->). right. left. exists msg, w2.
      repeat split; congruence.
  - destruct G5 as (msg & ->). left. exists msg, w1. auto.
Qed.

(** X9: a call of the facade that raises has sent the generation prompt
    and no other; its message carries the tag of the stage that failed,
    and when that stage is generation the store was not touched. *)
Theorem process_query_failure q w e w' :
  process_natural_language_query env q w = (Raise e, w') ->
  model_calls w' = model_calls w ++ [_create_sql_prompt q]
  /\ ((exists msg,
          e = py "Error generating SQL: " ++ msg
          /\ connects w' = connects w
          /\ open_conns w' = open_conns w
          /\ statements w' = statements w)
      \/ (exists msg,
            e = py "Error executing SQL: " ++ msg
            /\ connects w' = S (connects w))).
Proof.
  intros H.
  destruct (process_cases q w)
    as [(msg & w1 & P & ?) | [(msg & w1 & P & ?) | (? & ? & ? & w1 & P & _)]];
    rewrite P in H; [| |discriminate H]; injection H as <- <-.
  - split; [tauto|]. left. exists msg. tauto.
  - split; [tauto|]. right. exists msg. tauto.
Qed.

(** X10: a call of the facade that returns has run exactly the statement
    it returns, once, over one connection, and that statement is one the
    sanitizer leaves unchanged; it has sent the generation prompt and,
    unless the table is empty, the narration prompt, in this order; and if
    every open connection was accounted for before the call, the call left
    none of its own open. *)
Theorem process_query_success q w sql table insight w' :
  process_natural_language_query env q w = (Ok (sql, table, insight), w') ->
  _clean_sql_query sql = sql
  /\ statements w' = statements w ++ [sql]
  /\ connects w' = S (connects w)
  /\ model_calls w'
     = (model_calls w ++ [_create_sql_prompt q])
       ++ (if empty table then []
           else [insights_prompt q (_prepare_results_summary env table)])
  /\ (handles_fresh w = true -> open_conns w' = open_conns w).
Proof.
  intros H.
  destruct (process_cases q w)
    as [(msg & w1 & P & ?) | [(msg & w1 & P & ?) | (? & ? & ? & w1 & P & R)]];
    rewrite P in H; try discriminate H.
  injection H as <- <- <- <-. exact R.
Qed.

(** ** [POST /api/query] *)

Variable Rec : Type.
Variable to_dict_records : DataFrame Cell -> list Rec.

(** X11: the handler of [POST /api/query] never raises.  When the facade
    raises [e], the response echoes the question, reports [success = false]
    with [e] as its error, and every other field is empty; no prompt for
    follow-up questions is sent.  When the facade returns, the response
    reports success with an empty error and carries the statement, the
    records of the table, the narration, and the at most five follow-up
    questions asked for after the facade has returned. *)
Theorem api_query_response q w :
  exists resp w',
    Api.process_natural_language_query env to_dict_records q w
    = (Ok resp, w')
    /\ Api.question resp = q
    /\ match process_natural_language_query env q w with
       | (Raise e, w1) =>
           w' = w1
           /\ resp = {| Api.question := q;
                        Api.sql_query := [];
                        Api.results := [];
                        Api.insights := [];
                        Api.related_questions := [];
                        Api.success := false;
                        Api.error := e |}
       | (Ok (sql, table, insight), w1) =>
           Api.success resp = true
           /\ Api.error resp = []
           /\ Api.sql_query resp = sql
           /\ Api.results resp = to_dict_records table
           /\ Api.insights resp = insight
           /\ get_related_questions env q table w1
              = (Ok (Api.related_questions resp), w')
           /\ length (Api.related_questions resp) <= 5
       end.
Proof.
  unfold Api.process_natural_language_query, try_except, bind,
    analytics_get_related_questions, ret.
  destruct (process_natural_language_query env q w)
    as [[[[sql table] insight]|e] w1].
  - destruct (get_related_questions_run q table w1)
      as (qs & w2 & R & L & _).
    rewrite R. do 2 eexists. split; [reflexivity|]. simpl. auto 10.
  - do 2 eexists. split; [reflexivity|]. simpl. auto.
Qed.

(** X12: what a request to [POST /api/query] costs.  It connects to the
    store at most once and sends one, two or three prompts: one when it
    reports failure, and on success the generation prompt, the narration
    prompt unless the table is empty, and the prompt for follow-up
    questions.  A request that reports success leaves no connection of its
    own open, if every open connection was accounted for before it. *)
Theorem api_query_cost q w :
  exists resp w',
    Api.process_natural_language_query env to_dict_records q w
    = (Ok resp, w')
    /\ connects w' <= S (connects w)
    /\ (Api.success resp = false ->
        length (model_calls w') = length (model_calls w) + 1)
    /\ (Api.success resp = true ->
        (length (model_calls w') = length (model_calls w) + 2
         \/ length (model_calls w') = length (model_calls w) + 3)
        /\ connects w' = S (connects w)
        /\ (handles_fresh w = true -> open_conns w' = open_conns w)).
Proof.
  unfold Api.process_natural_language_query, try_except, bind,
    analytics_get_related_questions, ret.
  destruct (process_cases q w)
    as [(msg & w1 & P & M & C & _)
       | [(msg & w1 & P & M & C)
         | (sql & table & insight & w1 & P & _ & _ & C & M & O)]];
    rewrite P.
  - do 2 eexists. split; [reflexivity|]. simpl.
    rewrite M, C, length_app. simpl. repeat split; try discriminate; lia.
  - do 2 eexists. split; [reflexivity|]. simpl.
    rewrite M, C, length_app. simpl. repeat split; try discriminate; lia.
  - destruct (get_related_questions_run q table w1)
      as (qs & w2 & R & _ & M2 & C2 & O2 & _).
    rewrite R. do 2 eexists. split; [reflexivity|]. simpl.
    rewrite M2, C2, O2, M, C, !length_app.
    repeat split; try discriminate; try lia; auto.
    destruct (empty table); simpl; lia.
Qed.

End Stages.

Lemma process_query_failure_witness :
  exists msg,
    py "Error executing SQL: no such table: no_such_table"
    = py "Error executing SQL: " ++ msg.
Proof.
  destruct (process_query_failure missing_table_env (py "Which table?")
              World0
              (py "Error executing SQL: no such table: no_such_table")
              {| model_calls := [_create_sql_prompt (py "Which table?")];
                 connects := 1;
                 open_conns := [0];
                 statements := [py "SELECT * FROM no_such_table;"] |}
              eq_refl)
    as (_ & [(msg & E & C & _) | (msg & E & _)]).
  - discriminate C.
  - exists msg. exact E.
Defined.

Lemma process_query_success_witness :
  _clean_sql_query (py "SELECT name, created_at FROM restaurants;")
  = py "SELECT name, created_at FROM restaurants;".
Proof.
  pose (r := process_natural_language_query created_at_env
               (py "When was each restaurant created?") World0).
  apply (process_query_success created_at_env
           (py "When was each restaurant created?") World0
           (py "SELECT name, created_at FROM restaurants;") two_rows
           (py "Restaurant A leads in revenue generation.") (snd r)).
  reflexivity.
Defined.

Lemma api_query_cost_witness :
  exists (resp : Api.QueryResponse (list pystr)) w',
    Api.process_natural_language_query missing_table_env
      (fun df => rows df) (py "Which table?") World0 = (Ok resp, w')
    /\ length (model_calls w') = 1.
Proof.
  destruct (api_query_cost missing_table_env (list pystr)
              (fun df => rows df) (py "Which table?") World0)
    as (resp & w' & E & _ & F & _).
  exists resp, w'. split; [exact E|].
  apply F. cbv in E. now injection E as <- _.
Defined.
